(** * ads7830: the sampling and dispatch engine of the ADS7830 daemon

    A shallow embedding of [src/ads7830.c].  The C functions become
    functions in a state monad over a [world] that records, in order, every
    call the daemon makes to the operating system and to the variable
    server, together with the value each call returned.  What the outside
    answers is given by an environment [Env] that may depend on the whole
    history, so that any pattern of bus failures can be expressed. *)

From Stdlib Require Import ZArith List String Ascii Bool Lia Floats.
Import ListNotations.
Open Scope string_scope.
Open Scope list_scope.
Open Scope Z_scope.

(** ** Machine integers *)

(** Conversion to [uint8_t], [uint16_t] and [int] (32 bits, two's
    complement). *)
Definition uint8 (z : Z) : Z := z mod 256.
Definition uint16 (z : Z) : Z := z mod 65536.
Definition int32 (z : Z) : Z := (z + 2147483648) mod 4294967296 - 2147483648.

(** ** Constants *)

(** [errno.h] on Linux, and [EOK] as the variable server header has it. *)
Definition EOK : Z := 0.
Definition ENOENT : Z := 2.
Definition EINVAL : Z := 22.
Definition ENOTSUP : Z := 95.

Definition ADS7830_NUM_CHANNELS : Z := 8.

(** The constants and the handle type that the daemon takes from headers it
    only includes: [SIGRTMIN] from the C library, the two notification
    signals, the invalid handle and the conversion of an [int] to a
    [VAR_HANDLE] from the variable server. *)
Class Platform : Type := {
  SIGRTMIN : Z;
  SIG_VAR_CALC : Z;
  SIG_VAR_PRINT : Z;
  VAR_INVALID : Z;
  VAR_HANDLE_of_int : Z -> Z
}.

Definition TIMER_NOTIFICATION `{Platform} : Z := SIGRTMIN + 5.

(** ** Data model *)

(** [struct _ain]. *)
Record AIN : Type := mkAIN {
  channel : Z;
  name : option string;
  hVar : Z;
  interval : Z;
  timer : Z
}.

(** [struct _ads7830]. *)
Record ADS7830 : Type := mkADS7830 {
  running : bool;
  pFileName : option string;
  device : option string;
  exclusive : bool;
  verbose : bool;
  output : bool;
  fd : Z;
  hVarServer : Z;
  address : Z;
  channels : list AIN
}.

(** The state is cleared with [memset] before use: a slot that the list
    does not reach reads as the all-zero descriptor. *)
Definition zero_AIN : AIN := mkAIN 0 None 0 0 0.

Definition get_channel (st : ADS7830) (i : Z) : AIN :=
  nth (Z.to_nat i) (channels st) zero_AIN.

Fixpoint list_set (l : list AIN) (n : nat) (a : AIN) : list AIN :=
  match n, l with
  | O, [] => [a]
  | O, _ :: t => a :: t
  | S n', [] => zero_AIN :: list_set [] n' a
  | S n', h :: t => h :: list_set t n' a
  end.

Definition set_channel (st : ADS7830) (i : Z) (a : AIN) : ADS7830 :=
  mkADS7830 (running st) (pFileName st) (device st) (exclusive st)
            (verbose st) (output st) (fd st) (hVarServer st) (address st)
            (list_set (channels st) (Z.to_nat i) a).

(** The variable object handed to [VAR_Set]. *)
Inductive VarType : Type :=
| VARTYPE_INVALID | VARTYPE_UINT16 | VARTYPE_INT16 | VARTYPE_UINT32
| VARTYPE_INT32 | VARTYPE_FLOAT | VARTYPE_STR.

Record VarObject : Type := mkVarObject {
  var_type : VarType;
  var_len : Z;
  var_val_ui : Z
}.

Inductive NotificationType : Type := NOTIFY_CALC | NOTIFY_PRINT.

(** ** The outside world *)

(** Result of a system call: a non-negative value, or [-1] with [errno]
    set. *)
Inductive sysret : Type :=
| SysOk (v : N)
| SysErr (e : Z).

Definition retval (r : sysret) : Z :=
  match r with SysOk v => Z.of_N v | SysErr _ => -1 end.

(** Result of [read (fd, data, 1)]: one byte stored, nothing stored at end
    of file, or nothing stored and an error. *)
Inductive readret : Type :=
| ReadByte (b : Z)
| ReadEof
| ReadErr (e : Z).

(** The arguments that follow the format in a call of [dprintf]. *)
Inductive printf_arg : Type :=
| ArgInt (z : Z)
| ArgStr (s : option string)
| ArgDouble (f : float).

Inductive event : Type :=
| Ev_open (path : string) (r : sysret)
| Ev_ioctl_I2C_SLAVE (fd : Z) (addr : Z) (r : sysret)
| Ev_write (fd : Z) (byte : Z) (r : sysret)
| Ev_read (fd : Z) (r : readret)
| Ev_close (fd : Z)
| Ev_dprintf (fd : Z) (fmt : string) (args : list printf_arg)
| Ev_timer_create (signo : Z) (sival_int : Z) (r : sysret)
| Ev_timer_settime (timerid : Z) (interval_sec interval_nsec : Z)
                   (value_sec value_nsec : Z) (r : sysret)
| Ev_VAR_Set (hVarServer : Z) (hVar : Z) (var : VarObject) (r : Z)
| Ev_VAR_FindByName (hVarServer : Z) (name : string) (r : Z)
| Ev_VAR_Notify (hVarServer : Z) (hVar : Z) (kind : NotificationType) (r : Z)
| Ev_VAR_OpenPrintSession (hVarServer : Z) (id : Z) (r : option (Z * Z))
| Ev_VAR_ClosePrintSession (hVarServer : Z) (id : Z) (fd : Z).

(** What the outside answers, given everything that happened before.
    [env_indeterminate] is the content of a local variable that is read
    before anything was stored in it. *)
Class Env : Type := {
  env_open : list event -> string -> sysret;
  env_ioctl : list event -> Z -> Z -> sysret;
  env_write : list event -> Z -> Z -> sysret;
  env_read : list event -> Z -> readret;
  env_timer_create : list event -> Z -> Z -> sysret;
  env_timer_settime : list event -> Z -> Z -> Z -> Z -> Z -> sysret;
  env_VAR_Set : list event -> Z -> Z -> VarObject -> Z;
  env_VAR_FindByName : list event -> Z -> string -> Z;
  env_VAR_Notify : list event -> Z -> Z -> NotificationType -> Z;
  env_VAR_OpenPrintSession : list event -> Z -> Z -> option (Z * Z);
  env_indeterminate : list event -> string -> Z
}.

Record world : Type := mkWorld {
  trace : list event;
  errno : Z
}.

(** ** The monad of the daemon *)

Definition M (A : Type) : Type := world -> A * world.

Definition ret {A : Type} (a : A) : M A := fun w => (a, w).

Definition bind {A B : Type} (m : M A) (k : A -> M B) : M B :=
  fun w => let (a, w') := m w in k a w'.

Declare Scope ads_scope.
Delimit Scope ads_scope with ads.
Notation "x <- c ;; k" := (bind c (fun x => k))
  (at level 100, c at next level, right associativity) : ads_scope.
Notation "' p <- c ;; k" := (bind c (fun p => k))
  (at level 100, p pattern, c at next level, right associativity) : ads_scope.
Notation "c ;;; k" := (bind c (fun _ => k))
  (at level 100, right associativity) : ads_scope.
Open Scope ads_scope.

Definition emit (e : event) (new_errno : Z -> Z) : M unit :=
  fun w => (tt, mkWorld (trace w ++ [e]) (new_errno (errno w))).

Definition after (r : sysret) (old : Z) : Z :=
  match r with SysOk _ => old | SysErr e => e end.

Definition get_errno : M Z := fun w => (errno w, w).

Section Calls.
Context `{Env}.

Definition sys_open (path : string) : M Z :=
  fun w => let r := env_open (trace w) path in
           (emit (Ev_open path r) (after r);;; ret (retval r)) w.

Definition sys_ioctl_I2C_SLAVE (fd addr : Z) : M Z :=
  fun w => let r := env_ioctl (trace w) fd addr in
           (emit (Ev_ioctl_I2C_SLAVE fd addr r) (after r);;; ret (retval r)) w.

Definition sys_write (fd byte : Z) : M Z :=
  fun w => let r := env_write (trace w) fd byte in
           (emit (Ev_write fd byte r) (after r);;; ret (retval r)) w.

(** [read (fd, data, 1)]: the new content of [*data]. *)
Definition sys_read (fd data : Z) : M Z :=
  fun w => let r := env_read (trace w) fd in
           (emit (Ev_read fd r)
                 (fun old => match r with ReadErr e => e | _ => old end);;;
            ret (match r with ReadByte b => uint8 b | _ => data end)) w.

Definition sys_close (fd : Z) : M unit :=
  emit (Ev_close fd) (fun old => old).

Definition dprintf (fd : Z) (fmt : string) (args : list printf_arg) : M unit :=
  emit (Ev_dprintf fd fmt args) (fun old => old).

(** [timer_create (CLOCK_REALTIME, &te, timerID)]: the new content of
    [*timerID]. *)
Definition sys_timer_create (signo sival timerid : Z) : M Z :=
  fun w => let r := env_timer_create (trace w) signo sival in
           (emit (Ev_timer_create signo sival r) (after r);;;
            ret (match r with SysOk v => Z.of_N v | SysErr _ => timerid end)) w.

(** [timer_settime (timerid, 0, &its, NULL)]. *)
Definition sys_timer_settime (timerid isec insec vsec vnsec : Z) : M Z :=
  fun w => let r := env_timer_settime (trace w) timerid isec insec vsec vnsec in
           (emit (Ev_timer_settime timerid isec insec vsec vnsec r) (after r);;;
            ret (retval r)) w.

Definition VAR_Set (hvs hv : Z) (var : VarObject) : M Z :=
  fun w => let r := env_VAR_Set (trace w) hvs hv var in
           (emit (Ev_VAR_Set hvs hv var r) (fun old => old);;; ret r) w.

Definition VAR_FindByName (hvs : Z) (nm : string) : M Z :=
  fun w => let r := env_VAR_FindByName (trace w) hvs nm in
           (emit (Ev_VAR_FindByName hvs nm r) (fun old => old);;; ret r) w.

Definition VAR_Notify (hvs hv : Z) (k : NotificationType) : M Z :=
  fun w => let r := env_VAR_Notify (trace w) hvs hv k in
           (emit (Ev_VAR_Notify hvs hv k r) (fun old => old);;; ret r) w.

(** [VAR_OpenPrintSession (hVarServer, id, &hVar, &fd)]: the new content
    of [fd], which the session leaves alone when it cannot be opened. *)
Definition VAR_OpenPrintSession (hvs id fd : Z) : M Z :=
  fun w => let r := env_VAR_OpenPrintSession (trace w) hvs id in
           (emit (Ev_VAR_OpenPrintSession hvs id r) (fun old => old);;;
            ret (match r with Some (_, fd') => fd' | None => fd end)) w.

Definition VAR_ClosePrintSession (hvs id fd : Z) : M unit :=
  emit (Ev_VAR_ClosePrintSession hvs id fd) (fun old => old).

Definition indeterminate (var : string) : M Z :=
  fun w => (env_indeterminate (trace w) var, w).
End Calls.

(** ** The C library's [atoi] *)

(** [atoi] is [(int) strtol (s, NULL, 10)]: white space is skipped, one
    sign is read, then digits as long as there are some; the value is
    clamped to a [long] and converted to [int].  When the digits do not fit
    a [long], [strtol] sets [errno] to [ERANGE]. *)
Definition is_space (c : ascii) : bool :=
  let n := nat_of_ascii c in
  (Nat.eqb n 32 || (Nat.leb 9 n && Nat.leb n 13))%bool.

Definition is_digit (c : ascii) : bool :=
  let n := nat_of_ascii c in (Nat.leb 48 n && Nat.leb n 57)%bool.

Fixpoint skip_spaces (s : string) : string :=
  match s with
  | String c s' => if is_space c then skip_spaces s' else s
  | EmptyString => s
  end.

Fixpoint digits (s : string) (acc : Z) : Z :=
  match s with
  | String c s' =>
      if is_digit c
      then digits s' (10 * acc + (Z.of_nat (nat_of_ascii c) - 48))
      else acc
  | EmptyString => acc
  end.

Definition LONG_MAX : Z := 9223372036854775807.
Definition LONG_MIN : Z := -9223372036854775808.

Definition ERANGE : Z := 34.

(** The number that the text spells, however large. *)
Definition spelled (s : string) : Z :=
  match skip_spaces s with
  | String "-"%char s' => - digits s' 0
  | String "+"%char s' => digits s' 0
  | s' => digits s' 0
  end.

Definition strtol10 (s : string) : Z :=
  Z.max LONG_MIN (Z.min LONG_MAX (spelled s)).

(** The value that [atoi] returns. *)
Definition atoi_value (s : string) : Z := int32 (strtol10 s).

(** The call of [atoi]: its value, and [errno] as [strtol] leaves it. *)
Definition atoi (s : string) : M Z :=
  fun w =>
    (atoi_value s,
     mkWorld (trace w)
             (if ((spelled s <? LONG_MIN) || (LONG_MAX <? spelled s))%bool
              then ERANGE else errno w)).

(** ** Configuration nodes *)

(** A channel object of the configuration: its string attributes by key.
    [JSON_GetStr] gives the attribute, or [NULL] when there is none. *)
Definition JNode : Type := list (string * string).

Fixpoint JSON_GetStr (pNode : JNode) (key : string) : option string :=
  match pNode with
  | [] => None
  | (k, v) :: rest => if String.eqb k key then Some v else JSON_GetStr rest key
  end.

(** ** Formats of the status report *)

Definition nl : string := String (ascii_of_nat 10) EmptyString.
Definition tab : string := String (ascii_of_nat 9) EmptyString.

Definition fmt_timed : string :=
  (tab ++ "A%d: %s %4d ms %03d %0.2fV" ++ nl)%string.
Definition fmt_on_demand : string :=
  (tab ++ "A%d: %s ------- %03d %0.2fV" ++ nl)%string.

(** [((float)data/255.0) * 3.3]: the byte is converted exactly, and the
    division and the product are done in [double]. *)
Definition voltage (data : Z) : float :=
  ((PrimFloat.of_uint63 (Uint63.of_Z data) / 255) * 0x1.a666666666666p+1)%float.

(** ** The daemon *)

Definition chval : list Z := [0; 4; 1; 5; 2; 6; 3; 7].
Definition single_ended : Z := 0x80.
Definition dac_on_ref_off : Z := 0x04.

(** Lines 812 and 813 of [ReadChannel]: the command byte of a channel. *)
Definition command_byte (channel : Z) : Z :=
  let ch := uint8 (Z.shiftl (nth (Z.to_nat channel) chval 0) 4) in
  uint8 (Z.lor (Z.lor single_ended dac_on_ref_off) ch).

Definition in_range (channel : Z) : bool :=
  ((0 <=? channel) && (channel <? ADS7830_NUM_CHANNELS))%bool.

(** The state object is passed as a value and the sample as the content of
    the location it lives in: at every call in the file [pADS7830] and
    [data] point to objects, so the tests of these pointers against [NULL]
    hold and are left out.  A function that stores through a pointer
    returns the new content next to its result. *)
Section Daemon.
Context `{Platform} `{Env}.

(** [ReadChannel (pADS7830, channel, data)]: the result and the new
    content of [*data]. *)
Definition ReadChannel (pADS7830 : ADS7830) (channel : Z) (data : Z)
  : M (Z * Z) :=
  match device pADS7830 with
  | Some dev =>
      if in_range channel then
        let cmd := command_byte channel in
        '(fd, do_close) <-
           (if fd pADS7830 =? -1
            then ret (fd pADS7830, false)
            else fd <- sys_open dev;;
                 ret (fd, negb (fd =? -1)));;
        if negb (fd =? -1) then
          r <- sys_ioctl_I2C_SLAVE fd (address pADS7830);;
          '(result, data) <-
             (if 0 <=? r
              then sys_write fd cmd;;;
                   data <- sys_read fd data;;
                   ret (EOK, data)
              else e <- get_errno;;
                   ret (e, data));;
          (if do_close : bool then sys_close fd else ret tt);;;
          ret (result, data)
        else
          e <- get_errno;;
          ret (e, data)
      else ret (EINVAL, data)
  | None => ret (EINVAL, data)
  end.

(** [SampleChannel]: the local [data] holds nothing when its address is
    passed to [ReadChannel]. *)
Definition SampleChannel (pADS7830 : ADS7830) (channel : Z) : M Z :=
  if in_range channel then
    let hVar := hVar (get_channel pADS7830 channel) in
    if negb (hVar =? VAR_INVALID) then
      data <- indeterminate "data";;
      '(result, data) <- ReadChannel pADS7830 channel (uint8 data);;
      if result =? EOK then
        let var := mkVarObject VARTYPE_UINT16 2 (uint16 data) in
        VAR_Set (hVarServer pADS7830) hVar var
      else ret result
    else ret EINVAL
  else ret EINVAL.

Fixpoint FindChannel_from (pADS7830 : ADS7830) (hVar' : Z) (i : Z) (n : nat)
  : Z :=
  match n with
  | O => -1
  | S n' =>
      if hVar (get_channel pADS7830 i) =? hVar' then i
      else FindChannel_from pADS7830 hVar' (i + 1) n'
  end.

Definition FindChannel (pADS7830 : ADS7830) (hVar : Z) : Z :=
  if negb (hVar =? VAR_INVALID)
  then FindChannel_from pADS7830 hVar 0 (Z.to_nat ADS7830_NUM_CHANNELS)
  else -1.

(** The body of the loop of [PrintStatus], for channel [ch]. *)
Definition PrintStatus_channel (pADS7830 : ADS7830) (fd : Z) (ch : Z)
  : M unit :=
  let channel := get_channel pADS7830 ch in
  '(_, data) <- ReadChannel pADS7830 ch 0;;
  if negb (interval channel =? 0) then
    dprintf fd fmt_timed
            [ArgInt ch; ArgStr (name channel); ArgInt (interval channel);
             ArgInt data; ArgDouble (voltage data)]
  else
    dprintf fd fmt_on_demand
            [ArgInt ch; ArgStr (name channel);
             ArgInt data; ArgDouble (voltage data)].

Fixpoint PrintStatus_loop (pADS7830 : ADS7830) (fd : Z) (ch : Z) (n : nat)
  : M unit :=
  match n with
  | O => ret tt
  | S n' =>
      PrintStatus_channel pADS7830 fd ch;;;
      PrintStatus_loop pADS7830 fd (ch + 1) n'
  end.

Definition bool_str (b : bool) : option string :=
  Some (if b then "true" else "false").

(** [PrintStatus]: [result] is set when it is declared and nowhere
    else. *)
Definition PrintStatus (pADS7830 : ADS7830) (fd : Z) : M Z :=
  let result := EINVAL in
  if negb (fd =? -1) then
    dprintf fd ("ADS7830 Status:" ++ nl)%string [];;;
    dprintf fd ("Configuration File: %s" ++ nl)%string [ArgStr (pFileName pADS7830)];;;
    dprintf fd ("Device: %s" ++ nl)%string [ArgStr (device pADS7830)];;;
    dprintf fd ("Address: 0x%02x" ++ nl)%string [ArgInt (address pADS7830)];;;
    dprintf fd ("Exclusive: %s" ++ nl)%string [ArgStr (bool_str (exclusive pADS7830))];;;
    dprintf fd ("Verbose: %s" ++ nl)%string [ArgStr (bool_str (verbose pADS7830))];;;
    dprintf fd ("Channels:" ++ nl)%string [];;;
    PrintStatus_loop pADS7830 fd 0 (Z.to_nat ADS7830_NUM_CHANNELS);;;
    ret result
  else ret result.

(** [HandleSignal]: the tests are on the local [sig], in which nothing
    was stored; [signum] is not read. *)
Definition HandleSignal (pADS7830 : ADS7830) (signum : Z) (id : Z) : M Z :=
  sig <- indeterminate "sig";;
  if sig =? SIG_VAR_CALC then
    let hVar := VAR_HANDLE_of_int id in
    let ch := FindChannel pADS7830 hVar in
    if in_range ch then SampleChannel pADS7830 ch else ret ENOENT
  else if sig =? SIG_VAR_PRINT then
    fd <- VAR_OpenPrintSession (hVarServer pADS7830) id (-1);;
    PrintStatus pADS7830 fd;;;
    VAR_ClosePrintSession (hVarServer pADS7830) id fd;;;
    ret EOK
  else if sig =? TIMER_NOTIFICATION then
    let ch := id in
    if in_range ch then SampleChannel pADS7830 ch else ret ENOENT
  else ret ENOTSUP.

Definition set_interval (st : ADS7830) (ch v : Z) : ADS7830 :=
  let c := get_channel st ch in
  set_channel st ch (mkAIN (channel c) (name c) (hVar c) v (timer c)).

Definition set_name (st : ADS7830) (ch : Z) (v : option string) : ADS7830 :=
  let c := get_channel st ch in
  set_channel st ch (mkAIN (channel c) v (hVar c) (interval c) (timer c)).

Definition set_hVar (st : ADS7830) (ch v : Z) : ADS7830 :=
  let c := get_channel st ch in
  set_channel st ch (mkAIN (channel c) (name c) v (interval c) (timer c)).

Definition set_timer (st : ADS7830) (ch v : Z) : ADS7830 :=
  let c := get_channel st ch in
  set_channel st ch (mkAIN (channel c) (name c) (hVar c) (interval c) v).

(** [CreateTimer]: the result and the state with the timer of the
    channel. *)
Definition CreateTimer (pADS7830 : ADS7830) (channel : Z) (timeoutms : Z)
  : M (Z * ADS7830) :=
  let sigNo := TIMER_NOTIFICATION in
  let secs := Z.quot timeoutms 1000 in
  let msecs := Z.rem timeoutms 1000 in
  if in_range channel then
    t <- sys_timer_create sigNo channel (timer (get_channel pADS7830 channel));;
    sys_timer_settime t secs (msecs * 1000000) secs (msecs * 1000000);;;
    ret (EOK, set_timer pADS7830 channel t)
  else ret (ENOENT, pADS7830).

(** [ParseChannel]: the local [hVar] holds nothing unless the node has a
    ["var"] attribute; what is stored in [result] on the way is dropped,
    the function returns [EOK]. *)
Definition ParseChannel (pNode : JNode) (pADS7830 : ADS7830)
  : M (Z * ADS7830) :=
  channel <-
    match JSON_GetStr pNode "channel" with
    | Some attr => atoi attr
    | None => ret (-1)
    end;;
  if in_range channel then
    '(interval, st) <-
       match JSON_GetStr pNode "interval" with
       | Some attr =>
           interval <- atoi attr;;
           let st := set_interval pADS7830 channel interval in
           '(_, st) <- CreateTimer st channel interval;;
           ret (interval, st)
       | None => ret (0, set_interval pADS7830 channel 0)
       end;;
    hVar0 <- indeterminate "hVar";;
    '(hVar, st) <-
       match JSON_GetStr pNode "var" with
       | Some attr =>
           let st := set_name st channel (Some attr) in
           hVar <- VAR_FindByName (hVarServer st) attr;;
           ret (hVar, set_hVar st channel hVar)
       | None => ret (hVar0, set_hVar st channel VAR_INVALID)
       end;;
    (if interval =? 0
     then VAR_Notify (hVarServer st) hVar NOTIFY_CALC;;; ret tt
     else ret tt);;;
    ret (EOK, st)
  else ret (EOK, pADS7830).
End Daemon.

(** ** Observations on a trace *)

Definition is_bus_event (e : event) : bool :=
  match e with
  | Ev_open _ _ | Ev_ioctl_I2C_SLAVE _ _ _ | Ev_write _ _ _
  | Ev_read _ _ | Ev_close _ => true
  | _ => false
  end.

(** The byte that a [read] delivered, if one did. *)
Fixpoint byte_read (evs : list event) : option Z :=
  match evs with
  | [] => None
  | Ev_read _ (ReadByte b) :: _ => Some b
  | _ :: rest => byte_read rest
  end.

(** The values published with [VAR_Set], each with the handle it went to. *)
Fixpoint published (evs : list event) : list (Z * VarObject) :=
  match evs with
  | [] => []
  | Ev_VAR_Set _ hv var _ :: rest => (hv, var) :: published rest
  | _ :: rest => published rest
  end.

(** The channels for which a timer was requested. *)
Fixpoint timers_requested (evs : list event) : list Z :=
  match evs with
  | [] => []
  | Ev_timer_create _ ch _ :: rest => ch :: timers_requested rest
  | _ :: rest => timers_requested rest
  end.

(** The handles for which recalculation requests were asked for. *)
Fixpoint calc_interest (evs : list event) : list Z :=
  match evs with
  | [] => []
  | Ev_VAR_Notify _ hv NOTIFY_CALC _ :: rest => hv :: calc_interest rest
  | _ :: rest => calc_interest rest
  end.

Definition is_channel_line (e : event) : bool :=
  match e with
  | Ev_dprintf _ fmt _ =>
      (String.eqb fmt fmt_timed || String.eqb fmt fmt_on_demand)%bool
  | _ => false
  end.

(** The channel a line of the report is about: its first argument. *)
Definition line_channel (e : event) : Z :=
  match e with
  | Ev_dprintf _ _ (ArgInt ch :: _) => ch
  | _ => -1
  end.

(** The line of the report for a channel, as [PrintStatus] writes it for
    the raw value [data]. *)
Definition channel_line (st : ADS7830) (fd ch data : Z) : event :=
  let c := get_channel st ch in
  if negb (interval c =? 0) then
    Ev_dprintf fd fmt_timed
               [ArgInt ch; ArgStr (name c); ArgInt (interval c);
                ArgInt data; ArgDouble (voltage data)]
  else
    Ev_dprintf fd fmt_on_demand
               [ArgInt ch; ArgStr (name c);
                ArgInt data; ArgDouble (voltage data)].

(** What [PrintStatus] leaves on the trace for one channel: the bus traffic
    of the read, then one line whose raw value is the byte that the read
    delivered, or zero. *)
Definition rendered_block (st : ADS7830) (fd ch : Z) (block : list event)
  : Prop :=
  exists bus,
    block = bus ++ [channel_line st fd ch
                      (match byte_read bus with
                       | Some b => uint8 b
                       | None => 0
                       end)]
    /\ forallb is_bus_event bus = true.

Fixpoint indices (ch : Z) (n : nat) : list Z :=
  match n with
  | O => []
  | S n' => ch :: indices (ch + 1) n'
  end.

Section Report.
Context `{Env}.

(** The lines of a report, channel after channel: each channel is read
    with [ReadChannel], into a sample that starts as zero, in the world
    that the report has reached, and its line shows what that read left in
    the sample. *)
Fixpoint read_and_render (st : ADS7830) (fd : Z) (chs : list Z) (w : world)
  : world :=
  match chs with
  | [] => w
  | ch :: rest =>
      let '((_, data), w1) := ReadChannel st ch 0 w in
      read_and_render st fd rest
                      (mkWorld (trace w1 ++ [channel_line st fd ch data])
                               (errno w1))
  end.
End Report.

(** The amount that [%0.2f] prints, in hundredths: the exact value of the
    [double] times one hundred, rounded to the nearest integer, ties to
    even. *)
Definition round_half_even (num den : Z) : Z :=
  let q := num / den in
  let r := num mod den in
  if 2 * r <? den then q
  else if den <? 2 * r then q + 1
  else if Z.even q then q else q + 1.

Definition hundredths (f : float) : option Z :=
  match Prim2SF f with
  | S754_zero _ => Some 0
  | S754_finite s m e =>
      let n := 100 * Z.pos m in
      let v := if 0 <=? e then n * 2 ^ e else round_half_even n (2 ^ (- e)) in
      Some (if s then - v else v)
  | _ => None
  end.

(** ** Sample configurations *)

(** A choice of the constants of the headers, to run the model. *)
Definition sample_platform : Platform :=
  {| SIGRTMIN := 34;
     SIG_VAR_CALC := 41;
     SIG_VAR_PRINT := 43;
     VAR_INVALID := 0;
     VAR_HANDLE_of_int := fun z => z mod 4294967296 |}.

Definition EIO : Z := 5.

(** An outside where everything works: [open] gives descriptor 7 and the
    device answers 200; the local [sig] happens to hold [sig] and the other
    uninitialised locals 77. *)
Definition working_env (sig : Z) : Env :=
  {| env_open := fun _ _ => SysOk 7;
     env_ioctl := fun _ _ _ => SysOk 0;
     env_write := fun _ _ _ => SysOk 1;
     env_read := fun _ _ => ReadByte 200;
     env_timer_create := fun _ _ _ => SysOk 99;
     env_timer_settime := fun _ _ _ _ _ _ => SysOk 0;
     env_VAR_Set := fun _ _ _ _ => EOK;
     env_VAR_FindByName := fun _ _ _ => 12;
     env_VAR_Notify := fun _ _ _ _ => EOK;
     env_VAR_OpenPrintSession := fun _ _ _ => Some (5, 9);
     env_indeterminate :=
       fun _ v => if String.eqb v "sig" then sig else 77 |}.

(** An outside where the address is set but both transfers fail. *)
Definition failing_transfer_env : Env :=
  {| env_open := fun _ _ => SysOk 7;
     env_ioctl := fun _ _ _ => SysOk 0;
     env_write := fun _ _ _ => SysErr EIO;
     env_read := fun _ _ => ReadErr EIO;
     env_timer_create := fun _ _ _ => SysOk 99;
     env_timer_settime := fun _ _ _ _ _ _ => SysOk 0;
     env_VAR_Set := fun _ _ _ _ => EOK;
     env_VAR_FindByName := fun _ _ _ => 12;
     env_VAR_Notify := fun _ _ _ _ => EOK;
     env_VAR_OpenPrintSession := fun _ _ _ => Some (5, 9);
     env_indeterminate := fun _ _ => 77 |}.

(** Channel 0 bound and on demand, channel 3 bound with a timer of one
    second, the others unbound; the bus is not held. *)
Definition sample_state : ADS7830 :=
  mkADS7830 true (Some "ads7830.json") (Some "/dev/i2c-1")
            false false false 0 1 0x4b
            [mkAIN 0 (Some "/HW/ADS7830/A0") 10 0 0;
             zero_AIN; zero_AIN;
             mkAIN 0 (Some "/HW/ADS7830/A3") 13 1000 4].

(** The same with the bus held open on descriptor 5. *)
Definition exclusive_state : ADS7830 :=
  mkADS7830 true (Some "ads7830.json") (Some "/dev/i2c-1")
            true false false 5 1 0x4b (channels sample_state).

(** The same with no descriptor at all. *)
Definition closed_state : ADS7830 :=
  mkADS7830 true (Some "ads7830.json") (Some "/dev/i2c-1")
            false false false (-1) 1 0x4b (channels sample_state).

Definition sample_world : world := mkWorld [] 0.

Definition node_interval_zero : JNode :=
  [("channel", "2"); ("var", "/HW/ADS7830/A2"); ("interval", "0")].

Definition node_timed : JNode :=
  [("channel", "3"); ("var", "/HW/ADS7830/A3"); ("interval", "1000")].

(** The raw value that a line of the report shows. *)
Definition line_raw (e : event) : Z :=
  match e with
  | Ev_dprintf _ _ [ArgInt _; ArgStr _; ArgInt _; ArgInt d; _] => d
  | Ev_dprintf _ _ [ArgInt _; ArgStr _; ArgInt d; _] => d
  | _ => -1
  end.

(** An outside where the device cannot be opened for the read of channel 2
    of a report: the nineteen events before it are the seven lines of the
    header and the reads and lines of channels 0 and 1. *)
Definition flaky_env : Env :=
  {| env_open := fun h _ =>
                   if Nat.eqb (List.length h) 19 then SysErr EIO else SysOk 7;
     env_ioctl := fun _ _ _ => SysOk 0;
     env_write := fun _ _ _ => SysOk 1;
     env_read := fun _ _ => ReadByte 200;
     env_timer_create := fun _ _ _ => SysOk 99;
     env_timer_settime := fun _ _ _ _ _ _ => SysOk 0;
     env_VAR_Set := fun _ _ _ _ => EOK;
     env_VAR_FindByName := fun _ _ _ => 12;
     env_VAR_Notify := fun _ _ _ _ => EOK;
     env_VAR_OpenPrintSession := fun _ _ _ => Some (5, 9);
     env_indeterminate := fun _ _ => 77 |}.

(** The values of a [uint8_t]. *)
Definition bytes : list Z := map Z.of_nat (seq 0 256).

(** * Around the engine *)

(** ** Command line *)

Definition STDERR_FILENO : Z := 2.

Definition usage_text : string :=
  ("usage: %s [-v] [-h] [<filename>]" ++ nl
   ++ " [-h] : display this help" ++ nl
   ++ " [-o] : output the configuration" ++ nl
   ++ " [-v] : verbose output" ++ nl)%string.

(** [usage]: the text goes to [stderr], which is not buffered; it is
    recorded as a formatted write to descriptor 2. *)
Definition usage (cmdname : option string) : M unit :=
  match cmdname with
  | Some _ => dprintf STDERR_FILENO usage_text [ArgStr cmdname]
  | None => ret tt
  end.

Definition with_verbose (st : ADS7830) (b : bool) : ADS7830 :=
  mkADS7830 (running st) (pFileName st) (device st) (exclusive st)
            b (output st) (fd st) (hVarServer st) (address st) (channels st).

Definition with_output (st : ADS7830) (b : bool) : ADS7830 :=
  mkADS7830 (running st) (pFileName st) (device st) (exclusive st)
            (verbose st) b (fd st) (hVarServer st) (address st) (channels st).

Definition with_pFileName (st : ADS7830) (f : option string) : ADS7830 :=
  mkADS7830 (running st) f (device st) (exclusive st)
            (verbose st) (output st) (fd st) (hVarServer st) (address st)
            (channels st).

Definition char_code (c : ascii) : Z := Z.of_nat (nat_of_ascii c).

(** One call of [getopt (argC, argV, "hvo")] as the program sees it: what
    it returns, what it writes to [stderr] itself (for an option it does
    not know), and [argV] as it leaves it, since it moves the arguments
    that are not options behind the options. *)
Record getopt_call : Type := mkGetopt {
  opt_ret : Z;
  opt_diag : option string;
  opt_argV : list (option string)
}.

(** The diagnostic of [getopt], recorded like the text of [usage]. *)
Definition getopt_said (call : getopt_call) : M unit :=
  match opt_diag call with
  | Some text => dprintf STDERR_FILENO text []
  | None => ret tt
  end.

(** The loop of [ProcessOptions].  The calls of [getopt] are given one
    after the other as the list [calls]; the loop ends with the first call
    that returns -1, and at the end of the list.  The result is the state
    together with [argV] as the last call left it. *)
Fixpoint ProcessOptions_loop (calls : list getopt_call)
         (argV : list (option string)) (pADS7830 : ADS7830)
  : M (ADS7830 * list (option string)) :=
  match calls with
  | [] => ret (pADS7830, argV)
  | call :: rest =>
      getopt_said call;;;
      let argV := opt_argV call in
      let c := opt_ret call in
      if c =? -1 then ret (pADS7830, argV)
      else
        st <- (if c =? char_code "v" then ret (with_verbose pADS7830 true)
               else if c =? char_code "o" then ret (with_output pADS7830 true)
               else if c =? char_code "h" then
                      usage (nth 0 argV None);;; ret pADS7830
               else ret pADS7830);;
        ProcessOptions_loop rest argV st
  end.

(** [ProcessOptions]: [optind] is the value that [getopt] leaves in the
    variable of that name. *)
Definition ProcessOptions (argC : Z) (argV : list (option string))
           (calls : list getopt_call) (optind : Z) (pADS7830 : ADS7830)
  : M (Z * ADS7830) :=
  '(st, argV) <- ProcessOptions_loop calls argV pADS7830;;
  ret (0,
       if optind <? argC
       then with_pFileName st (nth (Z.to_nat optind) argV None)
       else st).

(** The options that the loop gets to see. *)
Fixpoint seen (calls : list getopt_call) : list Z :=
  match calls with
  | [] => []
  | call :: rest =>
      if opt_ret call =? -1 then [] else opt_ret call :: seen rest
  end.

(** [argV] as the calls of [getopt] leave it. *)
Fixpoint argV_left (calls : list getopt_call) (argV : list (option string))
  : list (option string) :=
  match calls with
  | [] => argV
  | call :: rest =>
      if opt_ret call =? -1 then opt_argV call
      else argV_left rest (opt_argV call)
  end.

(** The number of times that [-h] is seen while the program has a name. *)
Fixpoint usage_calls (calls : list getopt_call) : nat :=
  match calls with
  | [] => O
  | call :: rest =>
      if (opt_ret call =? -1)%Z then O
      else if (opt_ret call =? char_code "h")%Z
      then match nth 0 (opt_argV call) None with
           | Some _ => S (usage_calls rest)
           | None => usage_calls rest
           end
      else usage_calls rest
  end.

(** The number of diagnostics that [getopt] writes up to the call that
    returns -1. *)
Fixpoint diagnostics (calls : list getopt_call) : nat :=
  match calls with
  | [] => O
  | call :: rest =>
      ((match opt_diag call with Some _ => 1 | None => 0 end)
       + (if (opt_ret call =? -1)%Z then 0 else diagnostics rest))%nat
  end.

Definition is_usage (e : event) : bool :=
  match e with
  | Ev_dprintf fd fmt [ArgStr (Some _)] =>
      ((fd =? STDERR_FILENO) && String.eqb fmt usage_text)%bool
  | _ => false
  end.

(** The command line [ads7830 config.json -v -x -h]: [getopt] returns
    [v], then [?] with a diagnostic for the option it does not know, then
    [h], then -1, having moved the file name behind the options. *)
Definition sample_argV : list (option string) :=
  [Some "ads7830"; Some "config.json"; Some "-v"; Some "-x"; Some "-h"].

Definition sample_argV_permuted : list (option string) :=
  [Some "ads7830"; Some "-v"; Some "-x"; Some "-h"; Some "config.json"].

Definition sample_calls : list getopt_call :=
  [mkGetopt (char_code "v") None sample_argV;
   mkGetopt (char_code "?")
            (Some ("ads7830: invalid option -- 'x'" ++ nl)%string)
            sample_argV;
   mkGetopt (char_code "h") None sample_argV;
   mkGetopt (-1) None sample_argV_permuted].

(** ** Notifications for the status variable *)

Section Setup.
Context `{Platform} `{Env}.

Definition SetupPrintNotifications (pADS7830 : ADS7830) : M Z :=
  hVar <- VAR_FindByName (hVarServer pADS7830) "/HW/ADS7830/INFO";;
  if negb (hVar =? VAR_INVALID) then
    VAR_Notify (hVarServer pADS7830) hVar NOTIFY_PRINT
  else ret ENOENT.

(** The call [JSON_Iterate (channels, ParseChannel, &state)] of [main].
    The function of the JSON library is applied to the elements of the
    array in their order.  Whether it goes on after an element for which
    the callback returns something else than [EOK] is left open: it is the
    parameter [stop]. *)
Fixpoint JSON_Iterate (stop : bool) (pArray : list JNode)
         (fn : JNode -> ADS7830 -> M (Z * ADS7830)) (arg : ADS7830)
  : M ADS7830 :=
  match pArray with
  | [] => ret arg
  | pNode :: rest =>
      '(rc, arg') <- fn pNode arg;;
      if (stop && negb (rc =? EOK))%bool then ret arg'
      else JSON_Iterate stop rest fn arg'
  end.
End Setup.

(** ** More observations *)

(** The channel that a definition names, and -1 when it names none. *)
Definition node_channel (pNode : JNode) : Z :=
  match JSON_GetStr pNode "channel" with
  | Some attr => atoi_value attr
  | None => -1
  end.

Definition node_valid (pNode : JNode) : bool := in_range (node_channel pNode).

Definition node_has_interval (pNode : JNode) : bool :=
  match JSON_GetStr pNode "interval" with Some _ => true | None => false end.

(** The interval that [ParseChannel] stores for a definition. *)
Definition node_interval (pNode : JNode) : Z :=
  match JSON_GetStr pNode "interval" with
  | Some attr => atoi_value attr
  | None => 0
  end.

(** The descriptors that [open] gave, and those given to [close]. *)
Fixpoint opened (evs : list event) : list Z :=
  match evs with
  | [] => []
  | Ev_open _ (SysOk v) :: rest => Z.of_N v :: opened rest
  | _ :: rest => opened rest
  end.

Fixpoint closed (evs : list event) : list Z :=
  match evs with
  | [] => []
  | Ev_close fd :: rest => fd :: closed rest
  | _ :: rest => closed rest
  end.

(** The descriptors written to with [dprintf]. *)
Fixpoint sinks (evs : list event) : list Z :=
  match evs with
  | [] => []
  | Ev_dprintf fd _ _ :: rest => fd :: sinks rest
  | _ :: rest => sinks rest
  end.

(** The handles for which print requests were asked for. *)
Fixpoint print_interest (evs : list event) : list Z :=
  match evs with
  | [] => []
  | Ev_VAR_Notify _ hv NOTIFY_PRINT _ :: rest => hv :: print_interest rest
  | _ :: rest => print_interest rest
  end.

(** The shapes of the bus traffic of one read of a channel: nothing; an
    [open] that fails; an address that cannot be set; a whole transaction.
    Once the device is open everything is done on its descriptor, which is
    closed at the end. *)
Inductive transaction (dev : string) (addr cmd : Z) : list event -> Prop :=
| tr_nothing : transaction dev addr cmd []
| tr_open_failed (e : Z) :
    transaction dev addr cmd [Ev_open dev (SysErr e)]
| tr_address_failed (v : N) (e : Z) :
    transaction dev addr cmd
                [Ev_open dev (SysOk v);
                 Ev_ioctl_I2C_SLAVE (Z.of_N v) addr (SysErr e);
                 Ev_close (Z.of_N v)]
| tr_done (v v' : N) (written : sysret) (got : readret) :
    transaction dev addr cmd
                [Ev_open dev (SysOk v);
                 Ev_ioctl_I2C_SLAVE (Z.of_N v) addr (SysOk v');
                 Ev_write (Z.of_N v) cmd written;
                 Ev_read (Z.of_N v) got;
                 Ev_close (Z.of_N v)].

(** Events that leave the bus, the registry and the timers as they are
    when they are over. *)
Definition harmless (evs : list event) : Prop :=
  opened evs = closed evs
  /\ timers_requested evs = []
  /\ calc_interest evs = []
  /\ print_interest evs = [].

(** The configuration as the comment at the head of the source file shows
    it: the index of a channel under the key ["line"]. *)
Definition node_as_documented : JNode :=
  [("line", "3"); ("var", "/HW/ADS7830/A3"); ("mode", "timer");
   ("interval", "1000")].

Definition node_bad_index : JNode :=
  [("channel", "8"); ("var", "/HW/ADS7830/A8"); ("interval", "100")].

Definition node_on_demand : JNode :=
  [("channel", "0"); ("var", "/HW/ADS7830/A0")].

(** Channel 3 defined twice, with a definition that is passed over in
    between. *)
Definition sample_array : list JNode :=
  [node_timed; node_bad_index;
   [("channel", "3"); ("var", "/HW/ADS7830/B3")]].

Definition node_not_a_number : JNode :=
  [("channel", "three"); ("interval", "250")].

(** An outside where no variable is known and no session can be opened;
    the local [sig] happens to hold [sig]. *)
Definition empty_registry_env (sig : Z) : Env :=
  {| env_open := fun _ _ => SysOk 7;
     env_ioctl := fun _ _ _ => SysOk 0;
     env_write := fun _ _ _ => SysOk 1;
     env_read := fun _ _ => ReadByte 200;
     env_timer_create := fun _ _ _ => SysErr 11;
     env_timer_settime := fun _ _ _ _ _ _ => SysErr EINVAL;
     env_VAR_Set := fun _ _ _ _ => ENOENT;
     env_VAR_FindByName := fun _ _ _ => 0;
     env_VAR_Notify := fun _ _ _ _ => ENOENT;
     env_VAR_OpenPrintSession := fun _ _ _ => None;
     env_indeterminate :=
       fun _ v => if String.eqb v "sig" then sig else 77 |}.

(** * Properties *)

Ltac run :=
  unfold sys_open, sys_ioctl_I2C_SLAVE, sys_write, sys_read, sys_close,
    dprintf, sys_timer_create, sys_timer_settime,
    VAR_Set, VAR_FindByName, VAR_Notify,
    VAR_OpenPrintSession, VAR_ClosePrintSession,
    indeterminate, get_errno, atoi, emit, bind, ret in *;
  cbn [fst snd trace errno retval after] in *.

Ltac flatten_trace :=
  repeat rewrite <- app_assoc; cbn [app].

Lemma in_range_spec (ch : Z) : in_range ch = true <-> 0 <= ch <= 7.
Proof. unfold in_range, ADS7830_NUM_CHANNELS. lia. Qed.

Lemma in_range_cases (ch : Z) :
  in_range ch = true ->
  ch = 0 \/ ch = 1 \/ ch = 2 \/ ch = 3 \/ ch = 4 \/ ch = 5 \/ ch = 6 \/ ch = 7.
Proof. rewrite in_range_spec. lia. Qed.

Lemma retval_SysOk_not_closed (v : N) : (Z.of_N v =? -1) = false.
Proof. apply Z.eqb_neq. lia. Qed.

Lemma uint8_range (z : Z) : 0 <= uint8 z < 256.
Proof. unfold uint8. apply Z.mod_pos_bound. lia. Qed.

Lemma uint16_of_byte (z : Z) : 0 <= z < 256 -> uint16 z = z.
Proof. intros Hz. unfold uint16. apply Z.mod_small. lia. Qed.

Section ReadChannelFacts.
Context `{Env}.

Lemma ReadChannel_out_of_range (st : ADS7830) (ch data : Z) (w : world) :
  in_range ch = false -> ReadChannel st ch data w = ((EINVAL, data), w).
Proof.
  intros Hr. unfold ReadChannel. rewrite Hr. destruct (device st); reflexivity.
Qed.

(** Without a descriptor in the state nothing is opened: the result is
    what [errno] holds. *)
Lemma ReadChannel_without_descriptor
      (st : ADS7830) (dev : string) (ch data : Z) (w : world) :
  device st = Some dev -> in_range ch = true -> fd st = -1 ->
  ReadChannel st ch data w = ((errno w, data), w).
Proof.
  intros Hdev Hr Hfd. unfold ReadChannel. rewrite Hdev, Hr, Hfd. reflexivity.
Qed.

(** Everything [ReadChannel] does, by the answers of the outside. *)
Lemma ReadChannel_events (st : ADS7830) (ch data : Z) (w : world) :
  exists bus,
    trace (snd (ReadChannel st ch data w)) = trace w ++ bus
    /\ forallb is_bus_event bus = true
    /\ snd (fst (ReadChannel st ch data w))
       = match byte_read bus with Some b => uint8 b | None => data end
    /\ (forall fd b r, In (Ev_write fd b r) bus -> b = command_byte ch)
    /\ published bus = [].
Proof.
  unfold ReadChannel.
  destruct (device st) as [dev|];
    [destruct (in_range ch)|];
    try solve [exists []; rewrite app_nil_r; cbn; intuition].
  destruct (fd st =? -1) eqn:Hfd; run.
  - rewrite Hfd. cbn. exists []. rewrite app_nil_r. cbn. intuition.
  - destruct (env_open (trace w) dev) as [v|e] eqn:Ho; cbn.
    + rewrite retval_SysOk_not_closed. cbn.
      destruct (env_ioctl (trace w ++ [Ev_open dev (SysOk v)]) (Z.of_N v)
                          (address st)) as [v'|e'] eqn:Hi; cbn.
      * replace (0 <=? Z.of_N v') with true by (symmetry; apply Z.leb_le; lia).
        cbn. flatten_trace.
        eexists. split; [reflexivity|].
        destruct (env_read _ _); cbn; intuition; congruence.
      * flatten_trace. eexists. split; [reflexivity|].
        cbn. intuition; congruence.
    + flatten_trace. eexists. split; [reflexivity|].
      cbn. intuition; congruence.
Qed.
End ReadChannelFacts.

(** ** The command byte *)

(** C2, as the claim has it, fails at channel 0: the command byte is
    [0x84], in which bit 3 is clear, so bits 2 and 3 are not both set. *)
Lemma command_byte_bit3_clear :
  ~ (Z.testbit (command_byte 0) 7 = true
     /\ Z.testbit (command_byte 0) 2 = true
     /\ Z.testbit (command_byte 0) 3 = true).
Proof. cbv. intros (_ & _ & Hbit). discriminate Hbit. Qed.

Section CommandByte.
Context `{Env}.

(** C2 (amended): for every logical channel 0..7 the command byte is the
    single-ended bit OR the AD-on/reference-off constant [0x04] OR the
    select value shifted left by four, the select value being taken from
    the permutation 0,4,1,5,2,6,3,7; bit 7 and bit 2 are set and bit 3 is
    clear; and this is the byte that [ReadChannel] writes to the bus. *)
Theorem command_byte_layout (st : ADS7830) (ch data : Z) (w : world) :
  0 <= ch <= 7 ->
  command_byte ch
  = Z.lor (Z.lor 0x80 0x04)
          (Z.shiftl (nth (Z.to_nat ch) [0; 4; 1; 5; 2; 6; 3; 7] 0) 4)
  /\ Z.testbit (command_byte ch) 7 = true
  /\ Z.testbit (command_byte ch) 2 = true
  /\ Z.testbit (command_byte ch) 3 = false
  /\ (forall fd b r,
         In (Ev_write fd b r) (trace (snd (ReadChannel st ch data w))) ->
         In (Ev_write fd b r) (trace w) \/ b = command_byte ch).
Proof.
  intros Hch.
  assert (Hcases : ch = 0 \/ ch = 1 \/ ch = 2 \/ ch = 3 \/ ch = 4 \/ ch = 5
                   \/ ch = 6 \/ ch = 7) by lia.
  repeat split.
  1-4: destruct Hcases as [->|[->|[->|[->|[->|[->|[->| ->]]]]]]]; reflexivity.
  intros fd0 b r Hin.
  destruct (ReadChannel_events st ch data w) as (bus & Htr & _ & _ & Hw & _).
  rewrite Htr in Hin. apply in_app_or in Hin.
  destruct Hin as [Hold|Hnew]; [left; exact Hold | right; eauto].
Qed.
End CommandByte.

(** The byte written for channel 3 on a working bus, with the properties
    above. *)
Lemma command_byte_layout_witness :
  0 <= 3 <= 7
  /\ command_byte 3 = Z.lor (Z.lor 0x80 0x04)
                            (Z.shiftl (nth (Z.to_nat 3) [0; 4; 1; 5; 2; 6; 3; 7] 0) 4)
  /\ Z.testbit (command_byte 3) 3 = false.
Proof.
  split; [lia|].
  destruct (@command_byte_layout (working_env 0) sample_state 3 0 sample_world)
    as (Heq & _ & _ & Hb3 & _); [lia|].
  split; [exact Heq | exact Hb3].
Defined.

(** ** Status rendering: the value returned *)

Section PrintStatusResult.
Context `{Platform} `{Env}.

(** C10: [PrintStatus] returns [EINVAL] on every call, whatever the state,
    the sink and the answers of the outside; it never returns [EOK]. *)
Theorem PrintStatus_returns_EINVAL (st : ADS7830) (fd : Z) (w : world) :
  fst (PrintStatus st fd w) = EINVAL /\ fst (PrintStatus st fd w) <> EOK.
Proof.
  assert (Hres : fst (PrintStatus st fd w) = EINVAL).
  { unfold PrintStatus. destruct (negb (fd =? -1)); [|reflexivity].
    unfold bind.
    repeat match goal with
           | |- context [let (_, _) := ?m ?x in _] => destruct (m x)
           end.
    reflexivity. }
  split; [exact Hres | rewrite Hres; discriminate].
Qed.
End PrintStatusResult.

(** ** The voltage shown *)

Lemma in_bytes (d : Z) : 0 <= d <= 255 -> In d bytes.
Proof.
  intros Hd. unfold bytes. apply in_map_iff.
  exists (Z.to_nat d). split; [lia | apply in_seq; lia].
Qed.

Lemma voltage_order_table :
  forallb (fun a =>
             forallb (fun b => Bool.eqb (a <? b)
                                        (PrimFloat.ltb (voltage a) (voltage b)))
                     bytes)
          bytes = true.
Proof. vm_compute. reflexivity. Qed.

(** C8: the voltage shown for a raw byte is [byte / 255 * 3.3] in double
    precision: it is 0 for byte 0, printed as 0.00, it is the double
    closest to 3.3 for byte 255, printed as 3.30, and it increases
    strictly with the byte. *)
Theorem voltage_scaling (a b : Z) :
  0 <= a -> a < b -> b <= 255 ->
  (forall d, voltage d
             = (PrimFloat.of_uint63 (Uint63.of_Z d) / 255 * 0x1.a666666666666p+1)%float)
  /\ voltage 0 = 0%float
  /\ hundredths (voltage 0) = Some 0
  /\ voltage 255 = 0x1.a666666666666p+1%float
  /\ hundredths (voltage 255) = Some 330
  /\ PrimFloat.ltb (voltage a) (voltage b) = true.
Proof.
  intros Ha Hab Hb.
  repeat split; try reflexivity.
  pose proof voltage_order_table as Htab.
  rewrite forallb_forall in Htab.
  specialize (Htab a (in_bytes a ltac:(lia))).
  rewrite forallb_forall in Htab.
  specialize (Htab b (in_bytes b ltac:(lia))).
  apply Bool.eqb_prop in Htab. rewrite <- Htab. apply Z.ltb_lt. exact Hab.
Qed.

(** Bytes 100 and 101. *)
Lemma voltage_scaling_witness :
  0 <= 100 /\ 100 < 101 /\ 101 <= 255
  /\ PrimFloat.ltb (voltage 100) (voltage 101) = true.
Proof.
  repeat (split; [lia|]).
  destruct (voltage_scaling 100 101) as (_ & _ & _ & _ & _ & Hlt); [lia..|].
  exact Hlt.
Defined.

(** ** Routing *)

Section Routing.
Context `{Platform} `{Env}.

Lemma FindChannel_from_spec (st : ADS7830) (h : Z) (n : nat) :
  forall i : Z,
    FindChannel_from st h i n = -1
    \/ (i <= FindChannel_from st h i n < i + Z.of_nat n
        /\ hVar (get_channel st (FindChannel_from st h i n)) = h).
Proof.
  induction n as [|n IH]; intros i; [left; reflexivity|].
  cbn [FindChannel_from].
  destruct (hVar (get_channel st i) =? h) eqn:Hi.
  - right. apply Z.eqb_eq in Hi. split; [lia | exact Hi].
  - destruct (IH (i + 1)) as [Hnone|[Hr Hh]]; [left; exact Hnone|].
    right. split; [lia | exact Hh].
Qed.

(** [FindChannel] gives -1, or a channel 0..7 bound to the handle. *)
Lemma FindChannel_spec (st : ADS7830) (h : Z) :
  FindChannel st h = -1
  \/ (0 <= FindChannel st h <= 7
      /\ hVar (get_channel st (FindChannel st h)) = h
      /\ h <> VAR_INVALID).
Proof.
  unfold FindChannel.
  destruct (h =? VAR_INVALID) eqn:Hh; [left; reflexivity|].
  apply Z.eqb_neq in Hh. cbn [negb].
  destruct (FindChannel_from_spec st h (Z.to_nat ADS7830_NUM_CHANNELS) 0)
    as [Hnone|[Hr Hv]]; [left; exact Hnone|].
  right. unfold ADS7830_NUM_CHANNELS in *. repeat split; try lia; assumption.
Qed.

(** What [HandleSignal] does, by what the local [sig] holds. *)
Lemma HandleSignal_calc_branch (st : ADS7830) (signum id : Z) (w : world) :
  env_indeterminate (trace w) "sig" = SIG_VAR_CALC ->
  0 <= FindChannel st (VAR_HANDLE_of_int id) <= 7 ->
  HandleSignal st signum id w
  = SampleChannel st (FindChannel st (VAR_HANDLE_of_int id)) w.
Proof.
  intros Hsig Hch. apply in_range_spec in Hch.
  unfold HandleSignal. run. rewrite Hsig, Z.eqb_refl, Hch. reflexivity.
Qed.

Lemma HandleSignal_timer_branch (st : ADS7830) (signum id : Z) (w : world) :
  env_indeterminate (trace w) "sig" = TIMER_NOTIFICATION ->
  TIMER_NOTIFICATION <> SIG_VAR_CALC ->
  TIMER_NOTIFICATION <> SIG_VAR_PRINT ->
  0 <= id <= 7 ->
  HandleSignal st signum id w = SampleChannel st id w.
Proof.
  intros Hsig Hc Hp Hch. apply in_range_spec in Hch.
  apply Z.eqb_neq in Hc, Hp.
  unfold HandleSignal. run. rewrite Hsig, Hc, Hp, Z.eqb_refl, Hch. reflexivity.
Qed.

Lemma HandleSignal_other_branch (st : ADS7830) (signum id : Z) (w : world) :
  env_indeterminate (trace w) "sig" <> SIG_VAR_CALC ->
  env_indeterminate (trace w) "sig" <> SIG_VAR_PRINT ->
  env_indeterminate (trace w) "sig" <> TIMER_NOTIFICATION ->
  HandleSignal st signum id w = (ENOTSUP, w).
Proof.
  intros Hc Hp Ht. apply Z.eqb_neq in Hc, Hp, Ht.
  unfold HandleSignal. run. rewrite Hc, Hp, Ht. reflexivity.
Qed.
End Routing.

(** C1: [HandleSignal] never reads [signum]: two notifications that differ
    only in their class are handled alike, the branch being chosen by what
    the local [sig] happens to hold.  So a timer expiry for channel 3,
    which is bound, ends as "not supported" with nothing read or published
    when [sig] holds 0, and as a status report, again with nothing
    published, when [sig] holds [SIG_VAR_PRINT]. *)
Theorem HandleSignal_ignores_signum :
  (forall (P : Platform) (E : Env) st signum signum' id w,
      HandleSignal st signum id w = HandleSignal st signum' id w)
  /\ @HandleSignal sample_platform (working_env 0) sample_state
                   (@TIMER_NOTIFICATION sample_platform) 3 sample_world
     = (ENOTSUP, sample_world)
  /\ (let out := @HandleSignal sample_platform
                               (working_env (@SIG_VAR_PRINT sample_platform))
                               sample_state
                               (@TIMER_NOTIFICATION sample_platform) 3
                               sample_world in
      fst out = EOK
      /\ published (trace (snd out)) = []
      /\ List.length (filter is_channel_line (trace (snd out))) = 8%nat).
Proof.
  split; [reflexivity|].
  split; [reflexivity|].
  vm_compute. repeat split.
Qed.

Section OutOfRange.
Context `{Platform} `{Env}.

Lemma SampleChannel_out_of_range (st : ADS7830) (ch : Z) (w : world) :
  in_range ch = false -> SampleChannel st ch w = (EINVAL, w).
Proof. intros Hr. unfold SampleChannel. rewrite Hr. reflexivity. Qed.

(** C6 (amended): for a channel index outside 0..7 the Bus Reader returns
    "invalid argument" ([EINVAL]) and the timer-expiry branch and the
    recalculation branch of the Dispatcher return "channel not found"
    ([ENOENT]); in each case the world is left as it was: nothing is
    opened, written or read. *)
Theorem out_of_range_reads_nothing
        (st : ADS7830) (ch data signum : Z) (w : world) :
  ~ (0 <= ch <= 7) ->
  ReadChannel st ch data w = ((EINVAL, data), w)
  /\ (env_indeterminate (trace w) "sig" = TIMER_NOTIFICATION ->
      TIMER_NOTIFICATION <> SIG_VAR_CALC ->
      TIMER_NOTIFICATION <> SIG_VAR_PRINT ->
      HandleSignal st signum ch w = (ENOENT, w))
  /\ (env_indeterminate (trace w) "sig" = SIG_VAR_CALC ->
      forall id,
        FindChannel st (VAR_HANDLE_of_int id) = ch ->
        HandleSignal st signum id w = (ENOENT, w)).
Proof.
  intros Hch.
  assert (Hr : in_range ch = false).
  { destruct (in_range ch) eqn:E; [|reflexivity].
    apply in_range_spec in E. contradiction. }
  split; [apply ReadChannel_out_of_range; exact Hr|].
  split.
  - intros Hsig Hc Hp. unfold HandleSignal. run. rewrite Hsig.
    apply Z.eqb_neq in Hc, Hp. rewrite Hc, Hp, Z.eqb_refl, Hr. reflexivity.
  - intros Hsig id Hfind. unfold HandleSignal. run. rewrite Hsig.
    rewrite Z.eqb_refl, Hfind, Hr. reflexivity.
Qed.
End OutOfRange.

(** C6, as the claim has it, fails at channel 8: the Bus Reader answers
    [EINVAL], which is not "channel not found". *)
Lemma ReadChannel_out_of_range_not_ENOENT :
  fst (fst (@ReadChannel (working_env 0) sample_state 8 0 sample_world))
  <> ENOENT.
Proof. vm_compute. discriminate. Qed.

(** Channel 8, when the local [sig] holds the timer notification. *)
Lemma out_of_range_reads_nothing_witness :
  ~ (0 <= 8 <= 7)
  /\ @ReadChannel (working_env 39) sample_state 8 0 sample_world
     = ((EINVAL, 0), sample_world)
  /\ @HandleSignal sample_platform (working_env 39) sample_state 39 8
                   sample_world
     = (ENOENT, sample_world).
Proof.
  split; [lia|].
  destruct (@out_of_range_reads_nothing sample_platform (working_env 39)
              sample_state 8 0 39 sample_world) as (Hread & Htimer & _);
    [lia|].
  split; [exact Hread|].
  apply Htimer; [reflexivity | discriminate | discriminate].
Defined.

(** ** The connection used for a read *)

(** C3: with the bus held open on descriptor 5, a read of channel 3 opens
    the device again, does the whole transaction on the new descriptor 7
    and closes it; descriptor 5 is not used.  With no descriptor at all
    ([fd] is -1) nothing is opened and whatever [errno] holds is
    returned. *)
Theorem ReadChannel_opens_when_bus_held :
  @ReadChannel (working_env 0) exclusive_state 3 0 sample_world
  = ((EOK, 200),
     mkWorld [Ev_open "/dev/i2c-1" (SysOk 7);
              Ev_ioctl_I2C_SLAVE 7 0x4b (SysOk 0);
              Ev_write 7 0xd4 (SysOk 1);
              Ev_read 7 (ReadByte 200);
              Ev_close 7] 0)
  /\ @ReadChannel (working_env 0) closed_state 3 0 (mkWorld [] 13)
     = ((13, 0), mkWorld [] 13).
Proof. split; reflexivity. Qed.

(** ** The result of a read *)

(** C4: a failure of the transfers is not reported.  On a bus where the
    address can be set and [write] and [read] both fail with [EIO],
    [ReadChannel] returns [EOK], not the error code. *)
Lemma ReadChannel_transfer_failure_unreported :
  let out := @ReadChannel failing_transfer_env sample_state 3 0 sample_world in
  In (Ev_write 7 (command_byte 3) (SysErr EIO)) (trace (snd out))
  /\ In (Ev_read 7 (ReadErr EIO)) (trace (snd out))
  /\ fst (fst out) = EOK
  /\ fst (fst out) <> EIO.
Proof.
  vm_compute. repeat split; auto; discriminate.
Qed.

Section ReadResult.
Context `{Env}.

(** What [ReadChannel] returns in a read of a channel 0..7 that opens the
    device: a failure of [open] or of setting the target address gives the
    error code of that call and leaves the sample as it was; once the
    address is set the result is [EOK] whatever [write] and [read] return,
    and the sample is the byte read back when [read] delivered one. *)
Theorem ReadChannel_result
        (st : ADS7830) (dev : string) (ch data : Z) (w : world) :
  device st = Some dev ->
  0 <= ch <= 7 ->
  fd st <> -1 ->
  let opened := env_open (trace w) dev in
  let t1 := trace w ++ [Ev_open dev opened] in
  match opened with
  | SysErr e =>
      ReadChannel st ch data w = ((e, data), mkWorld t1 e)
  | SysOk v =>
      let fd' := Z.of_N v in
      let addressed := env_ioctl t1 fd' (address st) in
      let t2 := t1 ++ [Ev_ioctl_I2C_SLAVE fd' (address st) addressed] in
      match addressed with
      | SysErr e =>
          ReadChannel st ch data w
          = ((e, data), mkWorld (t2 ++ [Ev_close fd']) e)
      | SysOk _ =>
          let written := env_write t2 fd' (command_byte ch) in
          let t3 := t2 ++ [Ev_write fd' (command_byte ch) written] in
          fst (ReadChannel st ch data w)
          = (EOK, match env_read t3 fd' with
                  | ReadByte b => uint8 b
                  | _ => data
                  end)
          /\ trace (snd (ReadChannel st ch data w))
             = t3 ++ [Ev_read fd' (env_read t3 fd'); Ev_close fd']
      end
  end.
Proof.
  intros Hdev Hch Hfd.
  apply in_range_spec in Hch. apply Z.eqb_neq in Hfd.
  unfold ReadChannel. rewrite Hdev, Hch. run. rewrite Hfd.
  destruct (env_open (trace w) dev) as [v|e] eqn:Ho; cbn.
  - rewrite retval_SysOk_not_closed. cbn.
    destruct (env_ioctl _ _ _) as [v'|e'] eqn:Hi; cbn.
    + replace (0 <=? Z.of_N v') with true by (symmetry; apply Z.leb_le; lia).
      cbn. split; [reflexivity|]. flatten_trace. reflexivity.
    + reflexivity.
  - reflexivity.
Qed.
End ReadResult.

(** Channel 3 of the sample state when both transfers fail. *)
Lemma ReadChannel_result_witness :
  device sample_state = Some "/dev/i2c-1"
  /\ 0 <= 3 <= 7
  /\ fd sample_state <> -1
  /\ fst (@ReadChannel failing_transfer_env sample_state 3 0 sample_world)
     = (EOK, 0).
Proof.
  split; [reflexivity|]. split; [lia|]. split; [discriminate|].
  pose proof (@ReadChannel_result failing_transfer_env sample_state
                "/dev/i2c-1" 3 0 sample_world eq_refl ltac:(lia)
                ltac:(discriminate)) as Hres.
  cbn in Hres. destruct Hres as [Hfst _]. exact Hfst.
Defined.

(** ** Sampling a channel *)

Lemma byte_read_app (a b : list event) :
  byte_read (a ++ b)
  = match byte_read a with Some x => Some x | None => byte_read b end.
Proof.
  induction a as [|e a IH]; [reflexivity|].
  destruct e; cbn; try exact IH.
  destruct r; [reflexivity | exact IH | exact IH].
Qed.

Lemma published_app (a b : list event) :
  published (a ++ b) = published a ++ published b.
Proof.
  induction a as [|e a IH]; [reflexivity|].
  destruct e; cbn; rewrite ?IH; reflexivity.
Qed.

Section Sampling.
Context `{Platform} `{Env}.

(** Sampling a channel 0..7 that is not bound returns [EINVAL] and
    leaves the world as it was: no bus read, no publish.  For a bound
    channel exactly one value is published when the read returns [EOK] and
    none otherwise; the value goes to the handle of the channel as a
    [VARTYPE_UINT16] of two bytes, and it is the content of the sample
    after the read, below 256: the byte that the device delivered. *)
Theorem SampleChannel_publishes_iff_read_ok
        (st : ADS7830) (ch : Z) (w : world) :
  0 <= ch <= 7 ->
  let hv := hVar (get_channel st ch) in
  let data0 := uint8 (env_indeterminate (trace w) "data") in
  let result := fst (fst (ReadChannel st ch data0 w)) in
  let data := snd (fst (ReadChannel st ch data0 w)) in
  (hv = VAR_INVALID -> SampleChannel st ch w = (EINVAL, w))
  /\ (hv <> VAR_INVALID ->
      exists evs,
        trace (snd (SampleChannel st ch w)) = trace w ++ evs
        /\ (result = EOK ->
            published evs = [(hv, mkVarObject VARTYPE_UINT16 2 data)])
        /\ (result <> EOK ->
            published evs = [] /\ fst (SampleChannel st ch w) = result)
        /\ 0 <= data < 256
        /\ (forall b, byte_read evs = Some b -> data = uint8 b)).
Proof.
  intros Hch hv data0 result data.
  apply in_range_spec in Hch.
  unfold SampleChannel. rewrite Hch. fold hv.
  split.
  - intros Hhv. rewrite Hhv, Z.eqb_refl. reflexivity.
  - intros Hhv. apply Z.eqb_neq in Hhv. rewrite Hhv. cbn [negb].
    run. fold data0.
    destruct (ReadChannel_events st ch data0 w)
      as (bus & Htr & _ & Hdata & _ & Hpub).
    subst result data.
    destruct (ReadChannel st ch data0 w) as [[r d] w1] eqn:Hread.
    cbn [fst snd] in *.
    assert (Hrange : 0 <= d < 256).
    { rewrite Hdata. destruct (byte_read bus); [apply uint8_range|].
      apply uint8_range. }
    destruct (r =? EOK) eqn:Hr.
    + apply Z.eqb_eq in Hr. cbn [snd trace].
      exists (bus ++ [Ev_VAR_Set (hVarServer st) hv
                        (mkVarObject VARTYPE_UINT16 2 (uint16 d))
                        (env_VAR_Set (trace w1) (hVarServer st) hv
                           (mkVarObject VARTYPE_UINT16 2 (uint16 d)))]).
      rewrite Htr, app_assoc. split; [reflexivity|].
      rewrite published_app, Hpub, (uint16_of_byte d Hrange).
      split; [reflexivity|]. split; [intros Hne; contradiction|].
      split; [exact Hrange|].
      intros b Hb. rewrite byte_read_app in Hb.
      destruct (byte_read bus) as [b'|]; [|discriminate Hb].
      injection Hb as ->. exact Hdata.
    + apply Z.eqb_neq in Hr. cbn [snd fst].
      exists bus. split; [exact Htr|].
      split; [intros Heq; contradiction|].
      split; [split; [exact Hpub | reflexivity]|].
      split; [exact Hrange|].
      intros b Hb. rewrite Hb in Hdata. exact Hdata.
Qed.
End Sampling.

(** Channel 3 of the sample state on a working bus: the byte 200 is
    published to handle 13. *)
Lemma SampleChannel_publishes_iff_read_ok_witness :
  0 <= 3 <= 7
  /\ exists evs,
      trace (snd (@SampleChannel sample_platform (working_env 0)
                                 sample_state 3 sample_world))
      = trace sample_world ++ evs
      /\ published evs = [(13, mkVarObject VARTYPE_UINT16 2 200)].
Proof.
  split; [lia|].
  destruct (@SampleChannel_publishes_iff_read_ok sample_platform
              (working_env 0) sample_state 3 sample_world ltac:(lia))
    as (_ & Hbound).
  destruct (Hbound ltac:(discriminate)) as (evs & Htr & Hok & _).
  exists evs. split; [exact Htr | apply Hok; reflexivity].
Defined.

(** C9: what is published is not always a byte that was read.  On a bus
    where the address can be set and [write] and [read] both fail,
    [ReadChannel] returns [EOK] with the sample untouched, and
    [SampleChannel], whose sample holds nothing yet (77 here), publishes
    that to the variable of channel 3 and returns [EOK]: no byte was
    delivered by the device. *)
Theorem SampleChannel_publishes_unread_sample :
  let out := @SampleChannel sample_platform failing_transfer_env
                            sample_state 3 sample_world in
  fst out = EOK
  /\ In (Ev_read 7 (ReadErr EIO)) (trace (snd out))
  /\ byte_read (trace (snd out)) = None
  /\ published (trace (snd out))
     = [(13, mkVarObject VARTYPE_UINT16 2 77)].
Proof. vm_compute. repeat split; auto. Qed.

(** ** Status rendering: the lines *)

Lemma bus_events_no_lines (bus : list event) :
  forallb is_bus_event bus = true -> filter is_channel_line bus = [].
Proof.
  induction bus as [|e bus IH]; [reflexivity|].
  cbn [forallb]. intros Hb. apply andb_prop in Hb. destruct Hb as [He Hb].
  destruct e; try discriminate He; cbn; apply IH; exact Hb.
Qed.

Lemma channel_line_is_line (st : ADS7830) (fd ch data : Z) :
  is_channel_line (channel_line st fd ch data) = true
  /\ line_channel (channel_line st fd ch data) = ch.
Proof.
  unfold channel_line. destruct (negb _); split; reflexivity.
Qed.

Lemma rendered_block_lines (st : ADS7830) (fd ch : Z) (block : list event) :
  rendered_block st fd ch block ->
  map line_channel (filter is_channel_line block) = [ch].
Proof.
  intros (bus & -> & Hbus).
  rewrite filter_app, (bus_events_no_lines bus Hbus). cbn [app filter].
  destruct (channel_line_is_line st fd ch
              (match byte_read bus with Some b => uint8 b | None => 0 end))
    as [-> Hc].
  cbn [map]. rewrite Hc. reflexivity.
Qed.

Lemma rendered_blocks_lines (st : ADS7830) (fd : Z)
      (chs : list Z) (blocks : list (list event)) :
  Forall2 (rendered_block st fd) chs blocks ->
  map line_channel (filter is_channel_line (List.concat blocks)) = chs.
Proof.
  induction 1 as [|ch block chs blocks Hb _ IH]; [reflexivity|].
  cbn [List.concat]. rewrite filter_app, map_app, IH.
  rewrite (rendered_block_lines st fd ch block Hb). reflexivity.
Qed.

Section Rendering.
Context `{Platform} `{Env}.

Lemma PrintStatus_channel_block (st : ADS7830) (fd ch : Z) (w : world) :
  exists block,
    trace (snd (PrintStatus_channel st fd ch w)) = trace w ++ block
    /\ rendered_block st fd ch block.
Proof.
  unfold PrintStatus_channel. run.
  destruct (ReadChannel_events st ch 0 w) as (bus & Htr & Hbus & Hdata & _).
  destruct (ReadChannel st ch 0 w) as [[r d] w1]. cbn [fst snd] in *.
  exists (bus ++ [channel_line st fd ch d]). split.
  - unfold channel_line.
    destruct (negb (interval (get_channel st ch) =? 0));
      cbn [snd trace]; rewrite Htr, app_assoc; reflexivity.
  - exists bus. rewrite Hdata. split; [reflexivity | exact Hbus].
Qed.

Lemma PrintStatus_loop_blocks (st : ADS7830) (fd : Z) (n : nat) :
  forall (ch : Z) (w : world),
  exists blocks,
    trace (snd (PrintStatus_loop st fd ch n w)) = trace w ++ List.concat blocks
    /\ Forall2 (rendered_block st fd) (indices ch n) blocks.
Proof.
  induction n as [|n IH]; intros ch w.
  - exists []. cbn. rewrite app_nil_r. split; [reflexivity | constructor].
  - cbn [PrintStatus_loop indices]. unfold bind.
    destruct (PrintStatus_channel_block st fd ch w) as (block & Htr & Hblock).
    destruct (PrintStatus_channel st fd ch w) as [[] w1]. cbn [snd] in Htr.
    destruct (IH (ch + 1) w1) as (blocks & Htr' & Hblocks).
    exists (block :: blocks). split.
    + rewrite Htr', Htr. cbn [List.concat]. rewrite app_assoc. reflexivity.
    + constructor; assumption.
Qed.

Lemma PrintStatus_loop_reads (st : ADS7830) (fd : Z) (n : nat) :
  forall (ch : Z) (w : world),
    snd (PrintStatus_loop st fd ch n w)
    = read_and_render st fd (indices ch n) w.
Proof.
  induction n as [|n IH]; intros ch w; [reflexivity|].
  cbn [PrintStatus_loop indices read_and_render].
  unfold bind at 1.
  assert (Hbody : PrintStatus_channel st fd ch w
                  = (tt,
                     let '((_, data), w1) := ReadChannel st ch 0 w in
                     mkWorld (trace w1 ++ [channel_line st fd ch data])
                             (errno w1))).
  { unfold PrintStatus_channel, channel_line. run.
    destruct (ReadChannel st ch 0 w) as [[r d] w1].
    destruct (negb (interval (get_channel st ch) =? 0)); reflexivity. }
  rewrite Hbody. rewrite IH.
  destruct (ReadChannel st ch 0 w) as [[r d] w1]. reflexivity.
Qed.

(** C7 (amended): whatever the state of the controller, a report to a
    sink that is open consists of a header without channel lines followed
    by eight blocks, one for each of the channels 0 to 7 in this order.
    The report is what reading each channel with [ReadChannel] where the
    report has got to, and writing its line with the sample of that read,
    gives; a block is the bus traffic of that read followed by the line of
    the channel, whose raw value is the byte that the read delivered and
    zero when it delivered none.  So the report has exactly eight channel
    lines, and a read that fails costs its channel the value and nothing
    else.  To a sink that is not open nothing is written and no channel is
    read. *)
Theorem PrintStatus_eight_channel_lines
        (st : ADS7830) (fd : Z) (w : world) :
  fd <> -1 ->
  (exists header blocks,
      trace (snd (PrintStatus st fd w))
      = trace w ++ header ++ List.concat blocks
      /\ filter is_channel_line header = []
      /\ Forall2 (rendered_block st fd) [0; 1; 2; 3; 4; 5; 6; 7] blocks
      /\ map line_channel
             (filter is_channel_line (header ++ List.concat blocks))
         = [0; 1; 2; 3; 4; 5; 6; 7]
      /\ snd (PrintStatus st fd w)
         = read_and_render st fd [0; 1; 2; 3; 4; 5; 6; 7]
                           (mkWorld (trace w ++ header) (errno w)))
  /\ PrintStatus st (-1) w = (EINVAL, w).
Proof.
  intros Hfd. split; [|reflexivity]. apply Z.eqb_neq in Hfd.
  unfold PrintStatus. rewrite Hfd. cbn [negb]. run.
  match goal with
  | |- context [PrintStatus_loop st fd 0 ?n ?w0] =>
      pose proof (PrintStatus_loop_reads st fd n 0 w0) as Hreads;
      destruct (PrintStatus_loop_blocks st fd n 0 w0)
        as (blocks & Htr & Hblocks);
      destruct (PrintStatus_loop st fd 0 n w0) as [[] w1]
  end.
  cbn [snd trace] in *.
  repeat rewrite <- app_assoc in Htr. cbn [app] in Htr.
  repeat rewrite <- app_assoc in Hreads. cbn [app] in Hreads.
  match type of Htr with
  | _ = _ ++ ?a :: ?b :: ?c :: ?d :: ?e :: ?f :: ?g :: _ =>
      exists [a; b; c; d; e; f; g]
  end.
  exists blocks.
  split; [exact Htr|].
  split; [reflexivity|].
  split; [exact Hblocks|].
  split; [|exact Hreads].
  rewrite filter_app, map_app.
  rewrite (rendered_blocks_lines st fd _ blocks Hblocks). reflexivity.
Qed.
End Rendering.

(** A report in which the device cannot be opened for channel 2: eight
    lines all the same, channel 2 showing 0. *)
Example PrintStatus_with_failed_read :
  let lines :=
    filter is_channel_line
           (trace (snd (@PrintStatus flaky_env
                         sample_state 1 sample_world))) in
  map line_channel lines = [0; 1; 2; 3; 4; 5; 6; 7]
  /\ map line_raw lines = [200; 200; 0; 200; 200; 200; 200; 200].
Proof. vm_compute. split; reflexivity. Qed.

(** C7, as the claim has it, fails for a sink that is not open, which is
    what the branch for print requests passes on when the session could
    not be opened: the report has no channel line at all. *)
Lemma PrintStatus_closed_sink_no_lines :
  List.length
    (filter is_channel_line
            (trace (snd (@PrintStatus (working_env 0) sample_state (-1)
                                      sample_world))))
  <> 8%nat.
Proof. vm_compute. discriminate. Qed.

Lemma PrintStatus_eight_channel_lines_witness :
  1 <> -1
  /\ exists header blocks,
      trace (snd (@PrintStatus flaky_env
                               sample_state 1 sample_world))
      = trace sample_world ++ header ++ List.concat blocks
      /\ filter is_channel_line header = []
      /\ Forall2 (rendered_block sample_state 1) [0; 1; 2; 3; 4; 5; 6; 7] blocks
      /\ map line_channel
             (filter is_channel_line (header ++ List.concat blocks))
         = [0; 1; 2; 3; 4; 5; 6; 7]
      /\ snd (@PrintStatus flaky_env sample_state 1 sample_world)
         = @read_and_render flaky_env sample_state 1
                            [0; 1; 2; 3; 4; 5; 6; 7]
                            (mkWorld (trace sample_world ++ header)
                                     (errno sample_world)).
Proof.
  split; [discriminate|].
  apply (@PrintStatus_eight_channel_lines flaky_env
           sample_state 1 sample_world).
  discriminate.
Defined.

(** ** Populating the registry *)

Lemma nth_list_set (n : nat) :
  forall (l : list AIN) (a : AIN), nth n (list_set l n a) zero_AIN = a.
Proof.
  induction n as [|n IH]; intros [|h t] a; cbn; auto.
Qed.

Lemma get_set_channel (st : ADS7830) (ch : Z) (a : AIN) :
  get_channel (set_channel st ch a) ch = a.
Proof. unfold get_channel, set_channel. cbn. apply nth_list_set. Qed.

Lemma timers_requested_app (a b : list event) :
  timers_requested (a ++ b) = timers_requested a ++ timers_requested b.
Proof.
  induction a as [|e a IH]; [reflexivity|].
  destruct e; cbn; rewrite ?IH; reflexivity.
Qed.

Lemma calc_interest_app (a b : list event) :
  calc_interest (a ++ b) = calc_interest a ++ calc_interest b.
Proof.
  induction a as [|e a IH]; [reflexivity|].
  destruct e; cbn; rewrite ?IH; try reflexivity.
  destruct kind; cbn; rewrite ?IH; reflexivity.
Qed.

(** C5, as the claim has it, fails for an interval of zero: the definition
    of channel 2 with ["interval" : "0"] has a timer requested for the
    channel. *)
Lemma ParseChannel_interval_zero_requests_timer :
  let out := @ParseChannel sample_platform (working_env 0)
                           node_interval_zero sample_state sample_world in
  JSON_GetStr node_interval_zero "interval" = Some "0"
  /\ atoi_value "0" = 0
  /\ timers_requested (trace (snd out)) = [2]
  /\ timers_requested (trace (snd out)) <> [].
Proof. vm_compute. repeat split; discriminate. Qed.

Section Registry.
Context `{Platform} `{Env}.

(** C5 (amended): for a channel definition whose index is in 0..7, a
    timer is requested for the channel exactly when an interval attribute
    is given, whatever its value, and the interval stored is that value,
    or 0 when there is no attribute; recalculation interest is registered
    exactly when the interval stored is 0, and for a definition that names
    a variable it is registered for the handle bound to the channel. *)
Theorem ParseChannel_timer_and_interest
        (pNode : JNode) (st : ADS7830) (w : world) (index : string) :
  JSON_GetStr pNode "channel" = Some index ->
  0 <= atoi_value index <= 7 ->
  let ch := atoi_value index in
  let given := JSON_GetStr pNode "interval" in
  let stored :=
    match given with Some attr => atoi_value attr | None => 0 end in
  let out := ParseChannel pNode st w in
  let st' := snd (fst out) in
  exists evs,
    trace (snd out) = trace w ++ evs
    /\ fst (fst out) = EOK
    /\ interval (get_channel st' ch) = stored
    /\ timers_requested evs
       = match given with Some _ => [ch] | None => [] end
    /\ (stored = 0 ->
        exists h, calc_interest evs = [h]
                  /\ (JSON_GetStr pNode "var" <> None ->
                      h = hVar (get_channel st' ch)))
    /\ (stored <> 0 -> calc_interest evs = []).
Proof.
  intros Hindex Hch ch given stored out st'.
  apply in_range_spec in Hch.
  subst out st' stored given ch. unfold ParseChannel, CreateTimer.
  rewrite Hindex. run. rewrite !Hch.
  destruct (JSON_GetStr pNode "interval") as [attr|];
    destruct (JSON_GetStr pNode "var") as [var|];
    cbn [fst snd trace errno];
    repeat match goal with
           | |- context [env_timer_create ?t ?s ?c] =>
               destruct (env_timer_create t s c)
           end;
    cbn [fst snd trace];
    rewrite ?Z.eqb_refl;
    try match goal with
        | |- context [if ?i =? 0 then _ else _] =>
            destruct (i =? 0) eqn:Hzero;
            [apply Z.eqb_eq in Hzero | apply Z.eqb_neq in Hzero]
        end;
    cbn [fst snd trace];
    flatten_trace;
    (eexists; split; [reflexivity|]);
    unfold set_hVar, set_name, set_timer, set_interval;
    repeat (rewrite get_set_channel; cbn [interval hVar]);
    cbn [timers_requested calc_interest];
    repeat split; try reflexivity; try congruence;
    try (intros _; eexists; split; [reflexivity|]; intros; try reflexivity;
         congruence).
Qed.
End Registry.

(** The definition of channel 2 with an interval of zero: a timer is
    requested and interest is registered for the handle found. *)
Lemma ParseChannel_timer_and_interest_witness :
  JSON_GetStr node_interval_zero "channel" = Some "2"
  /\ 0 <= atoi_value "2" <= 7
  /\ exists evs,
      trace (snd (@ParseChannel sample_platform (working_env 0)
                                node_interval_zero sample_state sample_world))
      = trace sample_world ++ evs
      /\ timers_requested evs = [2]
      /\ exists h, calc_interest evs = [h].
Proof.
  split; [reflexivity|].
  split; [cbv; split; discriminate|].
  destruct (@ParseChannel_timer_and_interest sample_platform (working_env 0)
              node_interval_zero sample_state sample_world "2" eq_refl
              ltac:(cbv; split; discriminate))
    as (evs & Htr & _ & _ & Htimers & Hzero & _).
  exists evs. split; [exact Htr|]. split; [exact Htimers|].
  destruct (Hzero eq_refl) as (h & Hh & _).
  exists h. exact Hh.
Defined.

(** * Further properties of the code *)

(** ** Looking a handle up *)

Section Lookup.
Context `{Platform} `{Env}.

Lemma FindChannel_from_least (st : ADS7830) (h : Z) (n : nat) :
  forall i0 : Z,
    (FindChannel_from st h i0 n = -1
     /\ forall j, i0 <= j < i0 + Z.of_nat n -> hVar (get_channel st j) <> h)
    \/ (i0 <= FindChannel_from st h i0 n < i0 + Z.of_nat n
        /\ hVar (get_channel st (FindChannel_from st h i0 n)) = h
        /\ forall j, i0 <= j < FindChannel_from st h i0 n ->
                     hVar (get_channel st j) <> h).
Proof.
  induction n as [|n IH]; intros i0.
  - left. split; [reflexivity | intros j Hj; lia].
  - cbn [FindChannel_from].
    destruct (hVar (get_channel st i0) =? h) eqn:Hi.
    + apply Z.eqb_eq in Hi. right.
      split; [lia|]. split; [exact Hi | intros j Hj; lia].
    + apply Z.eqb_neq in Hi.
      destruct (IH (i0 + 1)) as [[Hnone Hall]|(Hr & Hh & Hleast)].
      * left. split; [exact Hnone|].
        intros j Hj. destruct (Z.eq_dec j i0) as [->|Hne]; [exact Hi|].
        apply Hall. lia.
      * right. split; [lia|]. split; [exact Hh|].
        intros j Hj. destruct (Z.eq_dec j i0) as [->|Hne]; [exact Hi|].
        apply Hleast. lia.
Qed.

(** X1: [FindChannel] answers with channel [i] exactly when the handle is
    not the invalid one, channel [i] is bound to it and no channel below
    [i] is: of several channels bound to one variable the lowest is
    found. *)
Theorem FindChannel_least (st : ADS7830) (h i : Z) :
  0 <= i <= 7 ->
  FindChannel st h = i
  <-> (h <> VAR_INVALID
       /\ hVar (get_channel st i) = h
       /\ forall j, 0 <= j < i -> hVar (get_channel st j) <> h).
Proof.
  intros Hi. unfold FindChannel.
  destruct (h =? VAR_INVALID) eqn:Hh; cbn [negb].
  - apply Z.eqb_eq in Hh. split; [lia | intros (Hne & _); contradiction].
  - apply Z.eqb_neq in Hh.
    destruct (FindChannel_from_least st h (Z.to_nat ADS7830_NUM_CHANNELS) 0)
      as [[Hnone Hall]|(Hr & Hv & Hleast)];
      unfold ADS7830_NUM_CHANNELS in *.
    + rewrite Hnone. split; [lia|].
      intros (_ & Hbound & _). exfalso. apply (Hall i); [lia | exact Hbound].
    + split.
      * intros <-. auto.
      * intros (_ & Hbound & Hlow).
        destruct (Z.lt_trichotomy
                    (FindChannel_from st h 0 (Z.to_nat 8)) i)
          as [Hlt|[Heq|Hgt]]; [|exact Heq|].
        -- exfalso. apply (Hlow _ (conj (proj1 Hr) Hlt)). exact Hv.
        -- exfalso. apply (Hleast i); [lia | exact Hbound].
Qed.

(** X2: [FindChannel] answers -1 exactly when the handle is the invalid
    one or none of the channels 0..7 is bound to it; any other answer is a
    channel 0..7.  An unbound channel is never found. *)
Theorem FindChannel_none (st : ADS7830) (h : Z) :
  (FindChannel st h = -1
   <-> (h = VAR_INVALID
        \/ forall i, 0 <= i <= 7 -> hVar (get_channel st i) <> h))
  /\ -1 <= FindChannel st h <= 7.
Proof.
  unfold FindChannel.
  destruct (h =? VAR_INVALID) eqn:Hh; cbn [negb].
  - apply Z.eqb_eq in Hh. split; [|lia]. split; auto.
  - apply Z.eqb_neq in Hh.
    destruct (FindChannel_from_least st h (Z.to_nat ADS7830_NUM_CHANNELS) 0)
      as [[Hnone Hall]|(Hr & Hv & Hleast)];
      unfold ADS7830_NUM_CHANNELS in *.
    + rewrite Hnone. split; [|lia]. split; [|reflexivity].
      intros _. right. intros i Hi. apply Hall. lia.
    + split; [|lia]. split; [lia|].
      intros [Hinv|Hall]; [contradiction|].
      exfalso.
      apply (Hall (FindChannel_from st h 0 (Z.to_nat 8))); [lia | exact Hv].
Qed.
End Lookup.

(** Handle 13 of the sample state is that of channel 3. *)
Lemma FindChannel_least_witness :
  0 <= 3 <= 7 /\ @FindChannel sample_platform sample_state 13 = 3.
Proof.
  split; [lia|].
  apply (@FindChannel_least sample_platform sample_state 13 3); [lia|].
  split; [discriminate|]. split; [reflexivity|].
  intros j Hj.
  assert (Hcases : j = 0 \/ j = 1 \/ j = 2) by lia.
  destruct Hcases as [->|[->| ->]]; discriminate.
Defined.

(** ** The slots of the registry *)

Lemma nth_list_set_other (n : nat) :
  forall (m : nat) (l : list AIN) (a : AIN),
    n <> m -> nth m (list_set l n a) zero_AIN = nth m l zero_AIN.
Proof.
  induction n as [|n IH]; intros [|m] [|h t] a Hne; cbn;
    try reflexivity; try contradiction.
  - destruct m; reflexivity.
  - rewrite IH by congruence. destruct m; reflexivity.
  - apply IH. congruence.
Qed.

Lemma list_set_twice (n : nat) :
  forall (l : list AIN) (a b : AIN),
    list_set (list_set l n a) n b = list_set l n b.
Proof.
  induction n as [|n IH]; intros [|h t] a b; cbn; try reflexivity.
  - rewrite IH. reflexivity.
  - rewrite IH. reflexivity.
Qed.

Lemma get_set_channel_other (st : ADS7830) (i j : Z) (a : AIN) :
  0 <= i -> 0 <= j -> i <> j ->
  get_channel (set_channel st i a) j = get_channel st j.
Proof.
  intros Hi Hj Hne. unfold get_channel, set_channel. cbn.
  apply nth_list_set_other. lia.
Qed.

Lemma set_set_channel (st : ADS7830) (i : Z) (a b : AIN) :
  set_channel (set_channel st i a) i b = set_channel st i b.
Proof.
  unfold set_channel. cbn. rewrite list_set_twice. reflexivity.
Qed.

Lemma opened_app (a b : list event) : opened (a ++ b) = opened a ++ opened b.
Proof.
  induction a as [|e a IH]; [reflexivity|].
  destruct e; cbn; rewrite ?IH; try reflexivity.
  destruct r; cbn; rewrite ?IH; reflexivity.
Qed.

Lemma closed_app (a b : list event) : closed (a ++ b) = closed a ++ closed b.
Proof.
  induction a as [|e a IH]; [reflexivity|].
  destruct e; cbn; rewrite ?IH; reflexivity.
Qed.

Lemma sinks_app (a b : list event) : sinks (a ++ b) = sinks a ++ sinks b.
Proof.
  induction a as [|e a IH]; [reflexivity|].
  destruct e; cbn; rewrite ?IH; reflexivity.
Qed.

Lemma print_interest_app (a b : list event) :
  print_interest (a ++ b) = print_interest a ++ print_interest b.
Proof.
  induction a as [|e a IH]; [reflexivity|].
  destruct e; cbn; rewrite ?IH; try reflexivity.
  destruct kind; cbn; rewrite ?IH; reflexivity.
Qed.

Lemma harmless_nil : harmless [].
Proof. repeat split. Qed.

Lemma harmless_app (a b : list event) :
  harmless a -> harmless b -> harmless (a ++ b).
Proof.
  intros (Ha1 & Ha2 & Ha3 & Ha4) (Hb1 & Hb2 & Hb3 & Hb4).
  unfold harmless.
  rewrite opened_app, closed_app, timers_requested_app, calc_interest_app,
    print_interest_app, Ha1, Ha2, Ha3, Ha4, Hb1, Hb2, Hb3, Hb4.
  repeat split.
Qed.

Section Definitions.
Context `{Platform} `{Env}.

(** What [ParseChannel] does with a definition whose index is in 0..7:
    one slot is replaced, and the outside sees requests for a timer, for a
    handle and for notifications only. *)
Lemma ParseChannel_effects (pNode : JNode) (st : ADS7830) (w : world) :
  node_valid pNode = true ->
  exists evs a,
    fst (ParseChannel pNode st w)
    = (EOK, set_channel st (node_channel pNode) a)
    /\ trace (snd (ParseChannel pNode st w)) = trace w ++ evs
    /\ channel a = channel (get_channel st (node_channel pNode))
    /\ interval a = node_interval pNode
    /\ match JSON_GetStr pNode "var" with
       | Some v =>
           name a = Some v
           /\ In (Ev_VAR_FindByName (hVarServer st) v (hVar a)) evs
       | None =>
           name a = name (get_channel st (node_channel pNode))
           /\ hVar a = VAR_INVALID
       end
    /\ timers_requested evs
       = (if node_has_interval pNode then [node_channel pNode] else [])
    /\ List.length (calc_interest evs)
       = (if node_interval pNode =? 0 then 1%nat else 0%nat)
    /\ opened evs = [] /\ closed evs = [] /\ published evs = []
    /\ sinks evs = [] /\ print_interest evs = [].
Proof.
  unfold node_valid, node_channel, node_interval, node_has_interval.
  intros Hvalid. unfold ParseChannel, CreateTimer.
  destruct (JSON_GetStr pNode "channel") as [index|];
    [|discriminate Hvalid].
  run. rewrite !Hvalid.
  destruct (JSON_GetStr pNode "interval") as [attr|];
    destruct (JSON_GetStr pNode "var") as [var|];
    cbn [fst snd trace errno];
    repeat match goal with
           | |- context [env_timer_create ?t ?s ?c] =>
               destruct (env_timer_create t s c)
           end;
    cbn [fst snd trace];
    rewrite ?Z.eqb_refl;
    try match goal with
        | |- context [if ?i =? 0 then _ else _] => destruct (i =? 0)
        end;
    cbn [fst snd trace];
    flatten_trace;
    unfold set_hVar, set_name, set_timer, set_interval;
    repeat (rewrite ?get_set_channel, ?set_set_channel;
            cbn [channel name hVar interval timer hVarServer set_channel]);
    rewrite ?set_set_channel;
    (eexists; eexists; split; [reflexivity|]; split; [reflexivity|]);
    cbn; intuition.
Qed.
End Definitions.

Section DefinitionsMore.
Context `{Platform} `{Env}.

(** X3: after [ParseChannel] has taken a definition that names a
    variable, the channel carries the name and the handle that
    [VAR_FindByName] gave for it; and when that handle is a valid one,
    [FindChannel] resolves it to a channel bound to it, the defined channel
    or a lower one bound to the same handle. *)
Theorem ParseChannel_then_FindChannel
        (pNode : JNode) (st : ADS7830) (w : world) (v : string) :
  0 <= node_channel pNode <= 7 ->
  JSON_GetStr pNode "var" = Some v ->
  let st' := snd (fst (ParseChannel pNode st w)) in
  let h := hVar (get_channel st' (node_channel pNode)) in
  name (get_channel st' (node_channel pNode)) = Some v
  /\ (exists evs,
         trace (snd (ParseChannel pNode st w)) = trace w ++ evs
         /\ In (Ev_VAR_FindByName (hVarServer st) v h) evs)
  /\ (h <> VAR_INVALID ->
      0 <= FindChannel st' h <= node_channel pNode
      /\ hVar (get_channel st' (FindChannel st' h)) = h).
Proof.
  intros Hch Hvar st' h. apply in_range_spec in Hch.
  destruct (ParseChannel_effects pNode st w Hch)
    as (evs & a & Hst & Htr & _ & _ & Hv & _).
  rewrite Hvar in Hv. destruct Hv as [Hname Hfind].
  assert (Hslot : get_channel st' (node_channel pNode) = a).
  { subst st'. rewrite Hst. apply get_set_channel. }
  subst h. rewrite Hslot. split; [exact Hname|].
  split; [exists evs; split; assumption|].
  intros Hvalid. unfold FindChannel.
  apply Z.eqb_neq in Hvalid. rewrite Hvalid. cbn [negb].
  apply in_range_spec in Hch.
  destruct (FindChannel_from_least st' (hVar a)
              (Z.to_nat ADS7830_NUM_CHANNELS) 0)
    as [[_ Hall]|(Hr & Hh & Hleast)]; unfold ADS7830_NUM_CHANNELS in *.
  - exfalso. apply (Hall (node_channel pNode)); [lia|].
    rewrite Hslot. reflexivity.
  - split; [|exact Hh]. split; [lia|].
    destruct (Z_le_gt_dec (FindChannel_from st' (hVar a) 0 (Z.to_nat 8))
                          (node_channel pNode)) as [Hle|Hgt]; [exact Hle|].
    exfalso. apply (Hleast (node_channel pNode)); [lia|].
    rewrite Hslot. reflexivity.
Qed.

Lemma ParseChannel_not_valid (pNode : JNode) (st : ADS7830) (w : world) :
  node_valid pNode = false ->
  fst (ParseChannel pNode st w) = (EOK, st)
  /\ trace (snd (ParseChannel pNode st w)) = trace w.
Proof.
  unfold node_valid, node_channel, ParseChannel. run.
  destruct (JSON_GetStr pNode "channel") as [index|];
    cbn [fst snd trace errno]; intros ->; split; reflexivity.
Qed.

(** A definition without a ["channel"] attribute, or with one that
    [atoi] does not turn into a number from 0 to 7, is passed over:
    [ParseChannel] returns [EOK] and leaves the state and the trace as
    they were. *)
Theorem ParseChannel_skips_bad_index
        (pNode : JNode) (st : ADS7830) (w : world) :
  ~ (0 <= node_channel pNode <= 7) ->
  fst (ParseChannel pNode st w) = (EOK, st)
  /\ trace (snd (ParseChannel pNode st w)) = trace w.
Proof.
  intros Hch. apply ParseChannel_not_valid. unfold node_valid.
  destruct (in_range (node_channel pNode)) eqn:Hr; [|reflexivity].
  apply in_range_spec in Hr. contradiction.
Qed.

(** X4: [ParseChannel] returns [EOK] whatever happens, changes no slot
    but the one of the channel that the definition names, and nothing else
    in the state; the field [channel] of a slot is not written at all. *)
Theorem ParseChannel_frame
        (pNode : JNode) (st : ADS7830) (w : world) (i : Z) :
  0 <= i ->
  let st' := snd (fst (ParseChannel pNode st w)) in
  fst (fst (ParseChannel pNode st w)) = EOK
  /\ (i <> node_channel pNode -> get_channel st' i = get_channel st i)
  /\ channel (get_channel st' i) = channel (get_channel st i)
  /\ (running st', pFileName st', device st', exclusive st', verbose st',
      output st', fd st', hVarServer st', address st')
     = (running st, pFileName st, device st, exclusive st, verbose st,
        output st, fd st, hVarServer st, address st).
Proof.
  intros Hi st'. subst st'.
  destruct (in_range (node_channel pNode)) eqn:Hr.
  - destruct (ParseChannel_effects pNode st w Hr)
      as (evs & a & Hst & _ & Hchan & _).
    rewrite Hst. cbn [fst snd]. apply in_range_spec in Hr.
    split; [reflexivity|]. split.
    + intros Hne. apply get_set_channel_other; lia.
    + split; [|reflexivity].
      destruct (Z.eq_dec i (node_channel pNode)) as [->|Hne].
      * rewrite get_set_channel. exact Hchan.
      * rewrite get_set_channel_other by lia. reflexivity.
  - destruct (ParseChannel_not_valid pNode st w Hr) as [-> _].
    cbn. repeat split.
Qed.

(** X5: for a channel 0..7 [CreateTimer] asks for a timer that signals
    [TIMER_NOTIFICATION] with the channel as its value and arms it with a
    first expiry equal to its period, which is the time asked for to the
    millisecond, the nanoseconds staying below one second when the time is
    not negative.  It returns [EOK] whatever [timer_create] and
    [timer_settime] answer; when no timer could be created it arms
    whatever the slot held as its timer before.  For any other channel it
    returns [ENOENT] and does nothing. *)
Theorem CreateTimer_arms
        (st : ADS7830) (ch timeoutms : Z) (w : world) :
  0 <= ch <= 7 ->
  let created := env_timer_create (trace w) TIMER_NOTIFICATION ch in
  let t := match created with
           | SysOk v => Z.of_N v
           | SysErr _ => timer (get_channel st ch)
           end in
  let requested :=
    trace w ++ [Ev_timer_create TIMER_NOTIFICATION ch created] in
  (exists secs nsecs,
      let armed := env_timer_settime requested t secs nsecs secs nsecs in
      CreateTimer st ch timeoutms w
      = ((EOK, set_timer st ch t),
         mkWorld (requested
                  ++ [Ev_timer_settime t secs nsecs secs nsecs armed])
                 (after armed (after created (errno w))))
      /\ secs * 1000000000 + nsecs = timeoutms * 1000000
      /\ (0 <= timeoutms -> 0 <= secs /\ 0 <= nsecs < 1000000000))
  /\ (forall ch', ~ (0 <= ch' <= 7) ->
                  CreateTimer st ch' timeoutms w = ((ENOENT, st), w)).
Proof.
  intros Hch created t requested. split.
  - apply in_range_spec in Hch.
    exists (Z.quot timeoutms 1000), (Z.rem timeoutms 1000 * 1000000).
    split.
    + unfold CreateTimer. rewrite Hch. run.
      subst requested t created.
      destruct (env_timer_create (trace w) TIMER_NOTIFICATION ch);
        reflexivity.
    + pose proof (Z.quot_rem' timeoutms 1000) as Hqr.
      split; [lia|]. intros Hpos.
      pose proof (Z.rem_bound_pos timeoutms 1000 Hpos ltac:(lia)) as Hrem.
      pose proof (Z.quot_pos timeoutms 1000 Hpos ltac:(lia)) as Hquot.
      lia.
  - intros ch' Hch'. unfold CreateTimer.
    destruct (in_range ch') eqn:Hr; [|reflexivity].
    apply in_range_spec in Hr. contradiction.
Qed.
End DefinitionsMore.

(** The definition of channel 3 with a timer, on a working registry. *)
Lemma ParseChannel_then_FindChannel_witness :
  0 <= node_channel node_timed <= 7
  /\ JSON_GetStr node_timed "var" = Some "/HW/ADS7830/A3"
  /\ name (get_channel
             (snd (fst (@ParseChannel sample_platform (working_env 0)
                                      node_timed sample_state sample_world)))
             (node_channel node_timed))
     = Some "/HW/ADS7830/A3".
Proof.
  split; [cbv; split; discriminate|]. split; [reflexivity|].
  destruct (@ParseChannel_then_FindChannel sample_platform (working_env 0)
              node_timed sample_state sample_world "/HW/ADS7830/A3"
              ltac:(cbv; split; discriminate) eq_refl) as (Hname & _).
  exact Hname.
Defined.

(** The definition as the head of the source file shows it, with the index
    under ["line"], and one with index 8. *)
Lemma ParseChannel_skips_bad_index_witness :
  ~ (0 <= node_channel node_as_documented <= 7)
  /\ fst (@ParseChannel sample_platform (working_env 0)
                        node_as_documented sample_state sample_world)
     = (EOK, sample_state)
  /\ fst (@ParseChannel sample_platform (working_env 0)
                        node_bad_index sample_state sample_world)
     = (EOK, sample_state).
Proof.
  assert (Hdoc : ~ (0 <= node_channel node_as_documented <= 7))
    by (cbv; intros [Hlo _]; apply Hlo; reflexivity).
  assert (Hbad : ~ (0 <= node_channel node_bad_index <= 7))
    by (cbv; intros [_ Hhi]; apply Hhi; reflexivity).
  split; [exact Hdoc|]. split.
  - apply (@ParseChannel_skips_bad_index sample_platform (working_env 0)
             node_as_documented sample_state sample_world Hdoc).
  - apply (@ParseChannel_skips_bad_index sample_platform (working_env 0)
             node_bad_index sample_state sample_world Hbad).
Defined.

(** Channel 0 while the definition of channel 3 is taken. *)
Lemma ParseChannel_frame_witness :
  0 <= 0
  /\ get_channel
       (snd (fst (@ParseChannel sample_platform (working_env 0)
                                node_timed sample_state sample_world))) 0
     = get_channel sample_state 0.
Proof.
  split; [lia|].
  destruct (@ParseChannel_frame sample_platform (working_env 0)
              node_timed sample_state sample_world 0 ltac:(lia))
    as (_ & Hother & _).
  apply Hother. discriminate.
Defined.

(** A period of a second and a half for channel 3 when no timer can be
    created: the stale timer 4 is armed, which fails. *)
Lemma CreateTimer_arms_witness :
  0 <= 3 <= 7
  /\ @CreateTimer sample_platform (empty_registry_env 0)
                  sample_state 3 1500 sample_world
     = ((EOK, sample_state),
        mkWorld [Ev_timer_create 39 3 (SysErr 11);
                 Ev_timer_settime 4 1 500000000 1 500000000 (SysErr EINVAL)]
                EINVAL).
Proof.
  split; [lia|].
  destruct (@CreateTimer_arms sample_platform (empty_registry_env 0)
              sample_state 3 1500 sample_world ltac:(lia))
    as ((secs & nsecs & Hrun & _) & _).
  rewrite Hrun. vm_compute in Hrun. injection Hrun as <- <-. reflexivity.
Defined.

(** ** The traffic of a read *)

Lemma transaction_quiet (dev : string) (addr cmd : Z) (bus : list event) :
  transaction dev addr cmd bus ->
  harmless bus /\ published bus = [] /\ sinks bus = []
  /\ (forall hvs hv var r, ~ In (Ev_VAR_Set hvs hv var r) bus).
Proof.
  intros Hshape.
  destruct Hshape; cbn; unfold harmless; cbn; repeat split;
    intros; intuition discriminate.
Qed.

Section Traffic.
Context `{Platform} `{Env}.

Lemma ReadChannel_bus (st : ADS7830) (ch data : Z) (w : world) :
  exists bus,
    trace (snd (ReadChannel st ch data w)) = trace w ++ bus
    /\ match device st with
       | Some dev => transaction dev (address st) (command_byte ch) bus
       | None => bus = []
       end
    /\ (0 <= data < 256 -> 0 <= snd (fst (ReadChannel st ch data w)) < 256).
Proof.
  unfold ReadChannel.
  destruct (device st) as [dev|];
    [destruct (in_range ch)|];
    try solve [exists []; rewrite app_nil_r; cbn;
               split; [reflexivity|]; split; [constructor | auto]].
  destruct (fd st =? -1) eqn:Hfd; run.
  - rewrite Hfd. cbn. exists []. rewrite app_nil_r.
    split; [reflexivity|]. split; [constructor | auto].
  - destruct (env_open (trace w) dev) as [v|e] eqn:Ho; cbn.
    + rewrite retval_SysOk_not_closed. cbn.
      destruct (env_ioctl (trace w ++ [Ev_open dev (SysOk v)]) (Z.of_N v)
                          (address st)) as [v'|e'] eqn:Hi; cbn.
      * replace (0 <=? Z.of_N v') with true by (symmetry; apply Z.leb_le; lia).
        cbn. flatten_trace.
        eexists. split; [reflexivity|]. split; [constructor|].
        intros Hdata. destruct (env_read _ _); cbn;
          [apply uint8_range | exact Hdata | exact Hdata].
      * flatten_trace. eexists. split; [reflexivity|].
        split; [constructor | auto].
    + flatten_trace. eexists. split; [reflexivity|].
      split; [constructor | auto].
Qed.

(** X6: the bus traffic of [ReadChannel] is nothing at all, or an [open]
    that fails, or [open], the setting of the address and [close], or
    [open], the address, the write of the command byte of the channel,
    the read and [close], in this order and all on the descriptor that
    [open] gave: every descriptor opened is closed again, and nothing is
    read before the address is set and the command written. *)
Theorem ReadChannel_transaction (st : ADS7830) (ch data : Z) (w : world) :
  exists bus,
    trace (snd (ReadChannel st ch data w)) = trace w ++ bus
    /\ match device st with
       | Some dev => transaction dev (address st) (command_byte ch) bus
       | None => bus = []
       end
    /\ opened bus = closed bus.
Proof.
  destruct (ReadChannel_bus st ch data w) as (bus & Htr & Hshape & _).
  exists bus. split; [exact Htr|]. split; [exact Hshape|].
  destruct (device st) as [dev|]; [|subst bus; reflexivity].
  destruct (transaction_quiet _ _ _ _ Hshape) as ((Hbal & _) & _).
  exact Hbal.
Qed.

Lemma ReadChannel_quiet (st : ADS7830) (ch data : Z) (w : world) :
  exists bus,
    trace (snd (ReadChannel st ch data w)) = trace w ++ bus
    /\ harmless bus /\ published bus = [] /\ sinks bus = []
    /\ (forall hvs hv var r, ~ In (Ev_VAR_Set hvs hv var r) bus)
    /\ (0 <= data < 256 -> 0 <= snd (fst (ReadChannel st ch data w)) < 256).
Proof.
  destruct (ReadChannel_bus st ch data w) as (bus & Htr & Hshape & Hdata).
  exists bus. split; [exact Htr|].
  destruct (device st) as [dev|].
  - destruct (transaction_quiet _ _ _ _ Hshape) as (Hh & Hp & Hs & Hn).
    auto 10.
  - subst bus. split; [apply harmless_nil|]. cbn. auto 10.
Qed.

Lemma SampleChannel_effects (st : ADS7830) (ch : Z) (w : world) :
  exists evs,
    trace (snd (SampleChannel st ch w)) = trace w ++ evs
    /\ harmless evs /\ sinks evs = []
    /\ (published evs = []
        \/ (0 <= ch <= 7
            /\ hVar (get_channel st ch) <> VAR_INVALID
            /\ exists d,
                0 <= d < 256
                /\ published evs
                   = [(hVar (get_channel st ch),
                       mkVarObject VARTYPE_UINT16 2 d)]))
    /\ (forall hvs hv var r,
           In (Ev_VAR_Set hvs hv var r) evs ->
           fst (SampleChannel st ch w) = r /\ hvs = hVarServer st).
Proof.
  unfold SampleChannel.
  destruct (in_range ch) eqn:Hr;
    [|exists []; rewrite app_nil_r; cbn;
      split; [reflexivity|]; split; [apply harmless_nil|];
      split; [reflexivity|]; split; [left; reflexivity|];
      intros ? ? ? ? []].
  destruct (hVar (get_channel st ch) =? VAR_INVALID) eqn:Hh; cbn [negb];
    [exists []; rewrite app_nil_r; cbn;
     split; [reflexivity|]; split; [apply harmless_nil|];
     split; [reflexivity|]; split; [left; reflexivity|];
     intros ? ? ? ? []|].
  apply Z.eqb_neq in Hh. apply in_range_spec in Hr. run.
  destruct (ReadChannel_quiet st ch
              (uint8 (env_indeterminate (trace w) "data")) w)
    as (bus & Htr & Hharm & Hpub & Hsink & Hno & Hdata).
  specialize (Hdata (uint8_range _)).
  destruct (ReadChannel st ch (uint8 (env_indeterminate (trace w) "data")) w)
    as [[r d] w1].
  cbn [fst snd] in *.
  destruct (r =? EOK).
  - cbn [fst snd trace].
    exists (bus ++ [Ev_VAR_Set (hVarServer st) (hVar (get_channel st ch))
                      (mkVarObject VARTYPE_UINT16 2 (uint16 d))
                      (env_VAR_Set (trace w1) (hVarServer st)
                         (hVar (get_channel st ch))
                         (mkVarObject VARTYPE_UINT16 2 (uint16 d)))]).
    rewrite Htr, app_assoc. split; [reflexivity|].
    split; [apply harmless_app; [exact Hharm | repeat split]|].
    split; [rewrite sinks_app, Hsink; reflexivity|].
    split.
    + right. split; [exact Hr|]. split; [exact Hh|].
      exists d. split; [exact Hdata|].
      rewrite published_app, Hpub, (uint16_of_byte d Hdata). reflexivity.
    + intros hvs hv var r0 Hin. apply in_app_or in Hin.
      destruct Hin as [Hin|[Hin|[]]]; [exfalso; exact (Hno _ _ _ _ Hin)|].
      injection Hin as <- _ _ <-. rewrite <- Htr. split; reflexivity.
  - cbn [fst snd]. exists bus. split; [exact Htr|].
    split; [exact Hharm|]. split; [exact Hsink|].
    split; [left; exact Hpub|].
    intros hvs hv var r0 Hin. exfalso. exact (Hno _ _ _ _ Hin).
Qed.

(** X7: sampling a channel publishes at most once, to the handle of the
    channel and through the connection of the state, and when it does the
    answer of the variable server is what [SampleChannel] returns: a
    publish that fails is reported to the caller.  Nothing else is left
    behind: no descriptor open, no timer, no notification request, no
    output. *)
Theorem SampleChannel_reports_publish (st : ADS7830) (ch : Z) (w : world) :
  exists evs,
    trace (snd (SampleChannel st ch w)) = trace w ++ evs
    /\ (forall hvs hv var r,
           In (Ev_VAR_Set hvs hv var r) evs ->
           fst (SampleChannel st ch w) = r
           /\ hvs = hVarServer st
           /\ published evs = [(hVar (get_channel st ch), var)])
    /\ harmless evs /\ sinks evs = [].
Proof.
  destruct (SampleChannel_effects st ch w)
    as (evs & Htr & Hharm & Hsink & Hpub & Hres).
  exists evs. split; [exact Htr|]. split; [|split; assumption].
  intros hvs hv var r Hin.
  destruct (Hres _ _ _ _ Hin) as [Hr Hs].
  split; [exact Hr|]. split; [exact Hs|].
  assert (Hinp : In (hv, var) (published evs)).
  { clear - Hin. induction evs as [|e evs IH]; [destruct Hin|].
    destruct Hin as [->|Hin]; [left; reflexivity|].
    destruct e; cbn; auto. }
  destruct Hpub as [Hnil|(_ & _ & d & _ & Hone)].
  - rewrite Hnil in Hinp. destruct Hinp.
  - rewrite Hone in Hinp |- *. destruct Hinp as [Heq|[]].
    injection Heq as _ <-. reflexivity.
Qed.
End Traffic.

(** ** What a report and a dispatch leave behind *)

Section Effects.
Context `{Platform} `{Env}.

Lemma PrintStatus_channel_effects (st : ADS7830) (fd ch : Z) (w : world) :
  exists evs,
    trace (snd (PrintStatus_channel st fd ch w)) = trace w ++ evs
    /\ harmless evs /\ published evs = [] /\ Forall (eq fd) (sinks evs).
Proof.
  unfold PrintStatus_channel. run.
  destruct (ReadChannel_quiet st ch 0 w)
    as (bus & Htr & Hharm & Hpub & Hsink & _).
  destruct (ReadChannel st ch 0 w) as [[r d] w1]. cbn [fst snd] in *.
  destruct (negb (interval (get_channel st ch) =? 0)); cbn [snd trace];
    (eexists; split; [rewrite Htr, <- app_assoc; reflexivity|]);
    (split; [apply harmless_app; [exact Hharm | repeat split]|]);
    rewrite published_app, sinks_app, Hpub, Hsink; cbn; auto.
Qed.

Lemma PrintStatus_loop_effects (st : ADS7830) (fd : Z) (n : nat) :
  forall (ch : Z) (w : world),
  exists evs,
    trace (snd (PrintStatus_loop st fd ch n w)) = trace w ++ evs
    /\ harmless evs /\ published evs = [] /\ Forall (eq fd) (sinks evs).
Proof.
  induction n as [|n IH]; intros ch w.
  - exists []. cbn. rewrite app_nil_r.
    split; [reflexivity|]. split; [apply harmless_nil | auto].
  - cbn [PrintStatus_loop]. unfold bind.
    destruct (PrintStatus_channel_effects st fd ch w)
      as (evs1 & Htr1 & Hh1 & Hp1 & Hs1).
    destruct (PrintStatus_channel st fd ch w) as [[] w1]. cbn [snd] in Htr1.
    destruct (IH (ch + 1) w1) as (evs2 & Htr2 & Hh2 & Hp2 & Hs2).
    exists (evs1 ++ evs2).
    split; [rewrite Htr2, Htr1, app_assoc; reflexivity|].
    split; [apply harmless_app; assumption|].
    rewrite published_app, sinks_app, Hp1, Hp2.
    split; [reflexivity | apply Forall_app; split; assumption].
Qed.

Lemma PrintStatus_effects (st : ADS7830) (fd : Z) (w : world) :
  exists evs,
    trace (snd (PrintStatus st fd w)) = trace w ++ evs
    /\ harmless evs /\ published evs = [] /\ Forall (eq fd) (sinks evs)
    /\ (fd = -1 -> evs = []).
Proof.
  unfold PrintStatus. destruct (fd =? -1) eqn:Hfd; cbn [negb].
  - exists []. cbn. rewrite app_nil_r.
    split; [reflexivity|]. split; [apply harmless_nil | auto].
  - apply Z.eqb_neq in Hfd. run.
    match goal with
    | |- context [PrintStatus_loop st fd 0 ?n ?w0] =>
        destruct (PrintStatus_loop_effects st fd n 0 w0)
          as (evs & Htr & Hharm & Hpub & Hsink);
        destruct (PrintStatus_loop st fd 0 n w0) as [[] w1]
    end.
    cbn [snd trace] in *.
    repeat rewrite <- app_assoc in Htr. cbn [app] in Htr.
    match type of Htr with
    | _ = _ ++ ?a :: ?b :: ?c :: ?d :: ?e :: ?f :: ?g :: _ =>
        exists ([a; b; c; d; e; f; g] ++ evs)
    end.
    split; [exact Htr|].
    split; [apply harmless_app; [repeat split | exact Hharm]|].
    rewrite published_app, sinks_app, Hpub.
    split; [reflexivity|]. split; [|intros Heq; contradiction].
    apply Forall_app. split; [repeat constructor | exact Hsink].
Qed.

(** X8: a status report reads the bus and writes to its sink, and that is
    all: every line goes to the descriptor given, nothing is published, no
    timer and no notification is asked for, and every descriptor opened
    for a read is closed again.  To a sink that is not open (-1) nothing is
    written and no channel is read. *)
Theorem PrintStatus_reads_and_writes_only
        (st : ADS7830) (fd : Z) (w : world) :
  (exists evs,
      trace (snd (PrintStatus st fd w)) = trace w ++ evs
      /\ Forall (eq fd) (sinks evs)
      /\ published evs = []
      /\ harmless evs)
  /\ (fd = -1 -> PrintStatus st fd w = (EINVAL, w)).
Proof.
  split.
  - destruct (PrintStatus_effects st fd w)
      as (evs & Htr & Hharm & Hpub & Hsink & _).
    exists evs. auto.
  - intros ->. reflexivity.
Qed.

(** X9: handling a notification, whatever branch is taken, publishes at
    most one value, and only to the valid handle of one of the channels
    0..7, as a [VARTYPE_UINT16] below 256; it asks for no timer and no
    notification and leaves no descriptor open. *)
Theorem HandleSignal_publishes_at_most_once
        (st : ADS7830) (signum id : Z) (w : world) :
  exists evs,
    trace (snd (HandleSignal st signum id w)) = trace w ++ evs
    /\ (List.length (published evs) <= 1)%nat
    /\ (forall hv var,
           In (hv, var) (published evs) ->
           hv <> VAR_INVALID
           /\ (exists ch, 0 <= ch <= 7 /\ hVar (get_channel st ch) = hv)
           /\ var_type var = VARTYPE_UINT16
           /\ 0 <= var_val_ui var < 256)
    /\ harmless evs.
Proof.
  assert (Hsample : forall ch,
             exists evs,
               trace (snd (SampleChannel st ch w)) = trace w ++ evs
               /\ (List.length (published evs) <= 1)%nat
               /\ (forall hv var,
                      In (hv, var) (published evs) ->
                      hv <> VAR_INVALID
                      /\ (exists ch, 0 <= ch <= 7
                                     /\ hVar (get_channel st ch) = hv)
                      /\ var_type var = VARTYPE_UINT16
                      /\ 0 <= var_val_ui var < 256)
               /\ harmless evs).
  { intros ch.
    destruct (SampleChannel_effects st ch w)
      as (evs & Htr & Hharm & _ & Hpub & _).
    exists evs. split; [exact Htr|].
    destruct Hpub as [->|(Hch & Hh & d & Hd & ->)].
    - split; [cbn; lia|]. split; [intros ? ? []|exact Hharm].
    - split; [cbn; lia|]. split; [|exact Hharm].
      intros hv var [Heq|[]]. injection Heq as <- <-.
      split; [exact Hh|]. split; [exists ch; auto|].
      split; [reflexivity | exact Hd]. }
  assert (Hnone : exists evs,
             trace w = trace w ++ evs
             /\ (List.length (published evs) <= 1)%nat
             /\ (forall hv var,
                    In (hv, var) (published evs) ->
                    hv <> VAR_INVALID
                    /\ (exists ch, 0 <= ch <= 7
                                   /\ hVar (get_channel st ch) = hv)
                    /\ var_type var = VARTYPE_UINT16
                    /\ 0 <= var_val_ui var < 256)
             /\ harmless evs).
  { exists []. rewrite app_nil_r. split; [reflexivity|].
    split; [cbn; lia|]. split; [intros ? ? []|apply harmless_nil]. }
  unfold HandleSignal. run.
  destruct (env_indeterminate (trace w) "sig" =? SIG_VAR_CALC).
  - destruct (in_range _); [apply Hsample | exact Hnone].
  - destruct (env_indeterminate (trace w) "sig" =? SIG_VAR_PRINT).
    + match goal with
      | |- context [PrintStatus st ?fd0 ?w0] =>
          destruct (PrintStatus_effects st fd0 w0)
            as (evs & Htr & Hharm & Hpub & _);
          destruct (PrintStatus st fd0 w0) as [r w1]
      end.
      cbn [fst snd trace] in *.
      match type of Htr with
      | _ = (_ ++ ?opening) ++ _ =>
          match goal with
          | |- context [trace w1 ++ ?closing] =>
              exists (opening ++ evs ++ closing)
          end
      end.
      split; [rewrite Htr, <- !app_assoc; reflexivity|].
      rewrite !published_app, Hpub.
      split; [cbn; lia|]. split; [intros ? ? []|].
      apply harmless_app; [repeat split|].
      apply harmless_app; [exact Hharm | repeat split].
    + destruct (env_indeterminate (trace w) "sig" =? TIMER_NOTIFICATION);
        [|exact Hnone].
      destruct (in_range id); [apply Hsample | exact Hnone].
Qed.

(** X10: in the branch for print requests the session is opened, the
    report is written to the descriptor of the session and the session is
    closed with that descriptor; the result is [EOK] although
    [PrintStatus] returns [EINVAL].  When the session cannot be opened the
    descriptor stays -1: nothing is reported, no channel is read, the
    session is closed all the same and the result is still [EOK]. *)
Theorem HandleSignal_print_session
        (st : ADS7830) (signum id : Z) (w : world) :
  env_indeterminate (trace w) "sig" = SIG_VAR_PRINT ->
  SIG_VAR_PRINT <> SIG_VAR_CALC ->
  let session := env_VAR_OpenPrintSession (trace w) (hVarServer st) id in
  let fd := match session with Some (_, fd') => fd' | None => -1 end in
  let w1 := mkWorld (trace w ++ [Ev_VAR_OpenPrintSession (hVarServer st) id
                                   session])
                    (errno w) in
  let w2 := snd (PrintStatus st fd w1) in
  HandleSignal st signum id w
  = (EOK, mkWorld (trace w2 ++ [Ev_VAR_ClosePrintSession (hVarServer st) id fd])
                  (errno w2))
  /\ (session = None ->
      HandleSignal st signum id w
      = (EOK,
         mkWorld (trace w
                  ++ [Ev_VAR_OpenPrintSession (hVarServer st) id None;
                      Ev_VAR_ClosePrintSession (hVarServer st) id (-1)])
                 (errno w))).
Proof.
  intros Hsig Hne session fd0 w1 w2.
  assert (Hrun : HandleSignal st signum id w
                 = (EOK, mkWorld (trace w2
                                  ++ [Ev_VAR_ClosePrintSession
                                        (hVarServer st) id fd0])
                                 (errno w2))).
  { unfold HandleSignal. run. rewrite Hsig.
    apply Z.eqb_neq in Hne. rewrite Hne, Z.eqb_refl.
    subst w2 w1 fd0 session.
    destruct (PrintStatus st _ _) as [r w']. reflexivity. }
  split; [exact Hrun|].
  intros Hnone. rewrite Hrun. subst w2 w1 fd0. rewrite Hnone.
  cbn. flatten_trace. reflexivity.
Qed.
End Effects.

(** A print request when no session can be opened. *)
Lemma HandleSignal_print_session_witness :
  @env_indeterminate (empty_registry_env 43) (trace sample_world) "sig"
  = @SIG_VAR_PRINT sample_platform
  /\ @SIG_VAR_PRINT sample_platform <> @SIG_VAR_CALC sample_platform
  /\ @HandleSignal sample_platform (empty_registry_env 43)
                   sample_state 43 9 sample_world
     = (EOK, mkWorld [Ev_VAR_OpenPrintSession 1 9 None;
                      Ev_VAR_ClosePrintSession 1 9 (-1)] 0).
Proof.
  split; [reflexivity|]. split; [discriminate|].
  destruct (@HandleSignal_print_session sample_platform
              (empty_registry_env 43) sample_state 43 9 sample_world
              eq_refl ltac:(discriminate)) as [_ Hfailed].
  apply Hfailed. reflexivity.
Defined.

(** ** Setting up *)

Section SetupFacts.
Context `{Platform} `{Env}.

(** X11: [SetupPrintNotifications] looks the variable
    ["/HW/ADS7830/INFO"] up once.  When there is no such variable it
    returns [ENOENT] and asks for no notification at all; otherwise it asks
    for print requests for exactly that handle and returns what the
    variable server answers.  It never asks for recalculation requests. *)
Theorem SetupPrintNotifications_result (st : ADS7830) (w : world) :
  let found :=
    env_VAR_FindByName (trace w) (hVarServer st) "/HW/ADS7830/INFO" in
  let looked :=
    trace w ++ [Ev_VAR_FindByName (hVarServer st) "/HW/ADS7830/INFO" found] in
  exists evs,
    trace (snd (SetupPrintNotifications st w)) = looked ++ evs
    /\ calc_interest evs = []
    /\ (found = VAR_INVALID ->
        evs = [] /\ fst (SetupPrintNotifications st w) = ENOENT)
    /\ (found <> VAR_INVALID ->
        print_interest evs = [found]
        /\ fst (SetupPrintNotifications st w)
           = env_VAR_Notify looked (hVarServer st) found NOTIFY_PRINT).
Proof.
  intros found looked. unfold SetupPrintNotifications. run. fold found.
  destruct (found =? VAR_INVALID) eqn:Hf; cbn [negb fst snd trace].
  - apply Z.eqb_eq in Hf. exists []. rewrite app_nil_r.
    split; [reflexivity|]. split; [reflexivity|].
    split; [auto | intros Hne; contradiction].
  - apply Z.eqb_neq in Hf. eexists. split; [reflexivity|].
    split; [reflexivity|].
    split; [intros Heq; contradiction | intros _; split; reflexivity].
Qed.
End SetupFacts.

(** ** The command line *)

Lemma ProcessOptions_loop_effects :
  forall (calls : list getopt_call) (argV : list (option string))
         (st : ADS7830) (w : world),
  exists evs,
    ProcessOptions_loop calls argV st w
    = ((mkADS7830 (running st) (pFileName st) (device st) (exclusive st)
                  (verbose st
                   || existsb (Z.eqb (char_code "v")) (seen calls))
                  (output st
                   || existsb (Z.eqb (char_code "o")) (seen calls))
                  (fd st) (hVarServer st) (address st) (channels st),
        argV_left calls argV),
       mkWorld (trace w ++ evs) (errno w))
    /\ List.length (filter is_usage evs) = usage_calls calls
    /\ List.length evs = (diagnostics calls + usage_calls calls)%nat
    /\ Forall (eq STDERR_FILENO) (sinks evs)
    /\ List.length (sinks evs) = List.length evs.
Proof.
  assert (Hsame : forall st : ADS7830,
             st = mkADS7830 (running st) (pFileName st) (device st)
                            (exclusive st) (verbose st || false)
                            (output st || false) (fd st) (hVarServer st)
                            (address st) (channels st)).
  { intros []. cbn. rewrite !orb_false_r. reflexivity. }
  induction calls as [|call calls IH]; intros argV st w.
  - exists []. cbn. rewrite app_nil_r. destruct w.
    rewrite <- Hsame. repeat split. constructor.
  - cbn [ProcessOptions_loop seen argV_left usage_calls diagnostics].
    assert (Hsaid : exists said,
               getopt_said call w = (tt, mkWorld (trace w ++ said) (errno w))
               /\ filter is_usage said = []
               /\ List.length said
                  = match opt_diag call with Some _ => 1%nat | None => 0%nat end
               /\ Forall (eq STDERR_FILENO) (sinks said)
               /\ List.length (sinks said) = List.length said).
    { unfold getopt_said. destruct (opt_diag call) as [text|]; run.
      - eexists. split; [reflexivity|]. cbn. repeat split.
        repeat constructor.
      - exists []. rewrite app_nil_r. destruct w. cbn. repeat split.
        constructor. }
    destruct Hsaid as (said & Hsaid & Hsu & Hsl & Hss & Hsn).
    unfold bind at 1. rewrite Hsaid.
    destruct (opt_ret call =? -1) eqn:Hend.
    + exists said. cbn [ret]. rewrite <- Hsame, Hsu. cbn [List.length].
      repeat split; auto; lia.
    + unfold bind. cbn [existsb].
      rewrite (Z.eqb_sym (char_code "v")), (Z.eqb_sym (char_code "o")).
      destruct (opt_ret call =? char_code "v") eqn:Hv;
        [|destruct (opt_ret call =? char_code "o") eqn:Ho;
          [|destruct (opt_ret call =? char_code "h") eqn:Hh]].
      * assert (Hh : (opt_ret call =? char_code "h") = false).
        { apply Z.eqb_eq in Hv. rewrite Hv. reflexivity. }
        assert (Ho : (opt_ret call =? char_code "o") = false).
        { apply Z.eqb_eq in Hv. rewrite Hv. reflexivity. }
        rewrite Hh, Ho. cbn [ret].
        destruct (IH (opt_argV call) (with_verbose st true)
                     (mkWorld (trace w ++ said) (errno w)))
          as (evs & Hrun & Hu & Hl & Hs & Hn).
        rewrite Hrun. cbn [trace errno].
        exists (said ++ evs). rewrite app_assoc. cbn.
        rewrite !orb_true_r. split; [reflexivity|].
        rewrite filter_app, sinks_app, !length_app, Hsu. cbn [List.length].
        repeat split; try lia. apply Forall_app. split; assumption.
      * assert (Hh : (opt_ret call =? char_code "h") = false).
        { apply Z.eqb_eq in Ho. rewrite Ho. reflexivity. }
        rewrite Hh. cbn [ret].
        destruct (IH (opt_argV call) (with_output st true)
                     (mkWorld (trace w ++ said) (errno w)))
          as (evs & Hrun & Hu & Hl & Hs & Hn).
        rewrite Hrun. cbn [trace errno].
        exists (said ++ evs). rewrite app_assoc. cbn.
        rewrite !orb_true_r. split; [reflexivity|].
        rewrite filter_app, sinks_app, !length_app, Hsu. cbn [List.length].
        repeat split; try lia. apply Forall_app. split; assumption.
      * unfold usage.
        destruct (nth 0 (opt_argV call) None) as [nm|] eqn:Hname; run.
        -- destruct (IH (opt_argV call) st
                        (mkWorld ((trace w ++ said)
                                  ++ [Ev_dprintf STDERR_FILENO usage_text
                                        [ArgStr (Some nm)]])
                                 (errno w)))
             as (evs & Hrun & Hu & Hl & Hs & Hn).
           rewrite Hrun. cbn [trace errno].
           exists (said ++ [Ev_dprintf STDERR_FILENO usage_text
                              [ArgStr (Some nm)]] ++ evs).
           rewrite !app_assoc. split; [reflexivity|].
           rewrite <- !app_assoc.
           rewrite !filter_app, !sinks_app, !length_app, Hsu.
           change (filter is_usage [Ev_dprintf STDERR_FILENO usage_text
                                      [ArgStr (Some nm)]])
             with [Ev_dprintf STDERR_FILENO usage_text [ArgStr (Some nm)]].
           cbn [List.length sinks orb].
           repeat split; try lia.
           apply Forall_app. split; [exact Hss|].
           constructor; [reflexivity | exact Hs].
        -- destruct (IH (opt_argV call) st
                        (mkWorld (trace w ++ said) (errno w)))
             as (evs & Hrun & Hu & Hl & Hs & Hn).
           rewrite Hrun. cbn [trace errno].
           exists (said ++ evs). rewrite app_assoc.
           split; [reflexivity|].
           rewrite filter_app, sinks_app, !length_app, Hsu.
           cbn [List.length orb].
           repeat split; try lia. apply Forall_app. split; assumption.
      * cbn [ret orb].
        destruct (IH (opt_argV call) st
                     (mkWorld (trace w ++ said) (errno w)))
          as (evs & Hrun & Hu & Hl & Hs & Hn).
        rewrite Hrun. cbn [trace errno].
        exists (said ++ evs). rewrite app_assoc.
        split; [reflexivity|].
        rewrite filter_app, sinks_app, !length_app, Hsu.
        cbn [List.length].
        repeat split; try lia. apply Forall_app. split; assumption.
Qed.

(** X12: [ProcessOptions] returns 0 and only ever sets flags: afterwards
    [verbose] holds when it held before or [getopt] returned [v] for one of
    the options, [output] likewise with [o]; the file name is the argument
    at [optind] of [argV] as [getopt] left it, when there is one, and is
    left alone otherwise.  Nothing else in the state changes; no option
    sets [exclusive]. *)
Theorem ProcessOptions_state
        (argC : Z) (argV : list (option string)) (calls : list getopt_call)
        (optind : Z) (st : ADS7830) (w : world) :
  fst (ProcessOptions argC argV calls optind st w)
  = (0,
     mkADS7830 (running st)
               (if optind <? argC
                then nth (Z.to_nat optind) (argV_left calls argV) None
                else pFileName st)
               (device st) (exclusive st)
               (verbose st || existsb (Z.eqb (char_code "v")) (seen calls))
               (output st || existsb (Z.eqb (char_code "o")) (seen calls))
               (fd st) (hVarServer st) (address st) (channels st)).
Proof.
  unfold ProcessOptions, bind, ret.
  destruct (ProcessOptions_loop_effects calls argV st w) as (evs & -> & _).
  cbn [fst]. destruct (optind <? argC); reflexivity.
Qed.

(** X13: all that [ProcessOptions] does to the outside is to write to
    [stderr]: the usage text once for each [-h] that is seen while the
    program has a name, next to the diagnostics of [getopt] itself; it
    goes on with the options that follow. *)
Theorem ProcessOptions_usage
        (argC : Z) (argV : list (option string)) (calls : list getopt_call)
        (optind : Z) (st : ADS7830) (w : world) :
  exists evs,
    trace (snd (ProcessOptions argC argV calls optind st w)) = trace w ++ evs
    /\ List.length (filter is_usage evs) = usage_calls calls
    /\ List.length evs = (diagnostics calls + usage_calls calls)%nat
    /\ Forall (eq STDERR_FILENO) (sinks evs)
    /\ List.length (sinks evs) = List.length evs.
Proof.
  unfold ProcessOptions, bind, ret.
  destruct (ProcessOptions_loop_effects calls argV st w)
    as (evs & -> & Hrest).
  exists evs. split; [reflexivity | exact Hrest].
Qed.

(** The sample command line: the file name is found behind the options,
    [verbose] is set and the usage text is written once. *)
Example ProcessOptions_sample :
  let out := ProcessOptions 5 sample_argV sample_calls 4 sample_state
                            sample_world in
  pFileName (snd (fst out)) = Some "config.json"
  /\ verbose (snd (fst out)) = true
  /\ output (snd (fst out)) = false
  /\ List.length (filter is_usage (trace (snd out))) = 1%nat
  /\ List.length (trace (snd out)) = 2%nat.
Proof. vm_compute. repeat split. Qed.

(** ** Populating the registry from the whole array *)

Section Population.
Context `{Platform} `{Env}.

Lemma ParseChannel_returns_EOK (pNode : JNode) (st : ADS7830) (w : world) :
  fst (fst (ParseChannel pNode st w)) = EOK.
Proof.
  destruct (node_valid pNode) eqn:Hv.
  - destruct (ParseChannel_effects pNode st w Hv) as (evs & a & Hst & _).
    rewrite Hst. reflexivity.
  - destruct (ParseChannel_not_valid pNode st w Hv) as [-> _]. reflexivity.
Qed.

(** What [ParseChannel] makes of the state and what it leaves on the trace
    do not depend on what [errno] holds. *)
Lemma ParseChannel_trace_only
      (pNode : JNode) (st : ADS7830) (w w' : world) :
  trace w = trace w' ->
  fst (ParseChannel pNode st w) = fst (ParseChannel pNode st w')
  /\ trace (snd (ParseChannel pNode st w))
     = trace (snd (ParseChannel pNode st w')).
Proof.
  destruct w as [t e], w' as [t' e']. cbn [trace]. intros <-.
  unfold ParseChannel, CreateTimer. run.
  destruct (JSON_GetStr pNode "channel") as [index|];
    cbn [fst snd trace errno];
    (destruct (in_range _); [|split; reflexivity]);
    destruct (JSON_GetStr pNode "interval") as [attr|];
    destruct (JSON_GetStr pNode "var") as [var|];
    cbn [fst snd trace errno];
    repeat match goal with
           | |- context [env_timer_create ?a ?b ?c] =>
               destruct (env_timer_create a b c)
           end;
    cbn [fst snd trace errno];
    repeat match goal with
           | |- context [if ?i =? 0 then _ else _] => destruct (i =? 0)
           end;
    split; reflexivity.
Qed.

Lemma JSON_Iterate_ParseChannel_cons
      (stop : bool) (pNode : JNode) (rest : list JNode)
      (st : ADS7830) (w : world) :
  JSON_Iterate stop (pNode :: rest) ParseChannel st w
  = JSON_Iterate stop rest ParseChannel
                 (snd (fst (ParseChannel pNode st w)))
                 (snd (ParseChannel pNode st w)).
Proof.
  cbn [JSON_Iterate]. unfold bind.
  pose proof (ParseChannel_returns_EOK pNode st w) as Hrc.
  destruct (ParseChannel pNode st w) as [[rc st'] w']. cbn [fst snd] in *.
  subst rc. rewrite Z.eqb_refl, andb_false_r. reflexivity.
Qed.

Lemma JSON_Iterate_ParseChannel_app
      (stop : bool) (pre post : list JNode) :
  forall (st : ADS7830) (w : world),
    JSON_Iterate stop (pre ++ post) ParseChannel st w
    = JSON_Iterate stop post ParseChannel
                   (fst (JSON_Iterate stop pre ParseChannel st w))
                   (snd (JSON_Iterate stop pre ParseChannel st w)).
Proof.
  induction pre as [|n pre IH]; intros st w; [reflexivity|].
  cbn [app]. rewrite !JSON_Iterate_ParseChannel_cons. apply IH.
Qed.

Lemma JSON_Iterate_trace_only (stop : bool) (nodes : list JNode) :
  forall (st : ADS7830) (w w' : world),
    trace w = trace w' ->
    fst (JSON_Iterate stop nodes ParseChannel st w)
    = fst (JSON_Iterate stop nodes ParseChannel st w')
    /\ trace (snd (JSON_Iterate stop nodes ParseChannel st w))
       = trace (snd (JSON_Iterate stop nodes ParseChannel st w')).
Proof.
  induction nodes as [|n nodes IH]; intros st w w' Htr.
  - split; [reflexivity | exact Htr].
  - rewrite !JSON_Iterate_ParseChannel_cons.
    destruct (ParseChannel_trace_only n st w w' Htr) as [Hst Htr'].
    rewrite Hst. apply IH. exact Htr'.
Qed.

Lemma ParseChannel_other_slot
      (pNode : JNode) (st : ADS7830) (w : world) (i : Z) :
  0 <= i ->
  (node_valid pNode = true -> node_channel pNode <> i) ->
  get_channel (snd (fst (ParseChannel pNode st w))) i = get_channel st i.
Proof.
  intros Hi Hne. destruct (node_valid pNode) eqn:Hv.
  - destruct (ParseChannel_effects pNode st w Hv) as (evs & a & Hst & _).
    rewrite Hst. cbn [snd]. apply in_range_spec in Hv.
    apply get_set_channel_other; [lia | exact Hi | auto].
  - destruct (ParseChannel_not_valid pNode st w Hv) as [-> _]. reflexivity.
Qed.

Lemma JSON_Iterate_other_slot (stop : bool) (nodes : list JNode) (i : Z) :
  0 <= i ->
  forall (st : ADS7830) (w : world),
    (forall n, In n nodes -> node_valid n = true -> node_channel n <> i) ->
    get_channel (fst (JSON_Iterate stop nodes ParseChannel st w)) i
    = get_channel st i.
Proof.
  intros Hi. induction nodes as [|n nodes IH]; intros st w Hall;
    [reflexivity|].
  rewrite JSON_Iterate_ParseChannel_cons, IH.
  - apply ParseChannel_other_slot; [exact Hi|]. apply Hall. left. reflexivity.
  - intros m Hm. apply Hall. right. exact Hm.
Qed.

(** X14: populating the registry from an array of definitions gives the
    state and the trace that populating it from the definitions whose
    index is in 0..7 gives: the others change no slot, reach nothing
    outside and never end the iteration, whether or not the iteration
    would stop at a callback that fails. *)
Theorem JSON_Iterate_skips_bad_definitions
        (stop : bool) (nodes : list JNode) (st : ADS7830) (w : world) :
  fst (JSON_Iterate stop nodes ParseChannel st w)
  = fst (JSON_Iterate false (filter node_valid nodes) ParseChannel st w)
  /\ trace (snd (JSON_Iterate stop nodes ParseChannel st w))
     = trace (snd (JSON_Iterate false (filter node_valid nodes)
                                ParseChannel st w)).
Proof.
  revert st w. induction nodes as [|n nodes IH]; intros st w;
    [split; reflexivity|].
  rewrite JSON_Iterate_ParseChannel_cons. cbn [filter].
  destruct (node_valid n) eqn:Hv.
  - rewrite JSON_Iterate_ParseChannel_cons. apply IH.
  - destruct (ParseChannel_not_valid n st w Hv) as [Hst Htr].
    rewrite Hst. cbn [snd].
    destruct (IH st (snd (ParseChannel n st w))) as [IHst IHtr].
    destruct (JSON_Iterate_trace_only false (filter node_valid nodes) st
                (snd (ParseChannel n st w)) w Htr) as [Est Etr].
    split; congruence.
Qed.


(** X16: populating the registry leaves alone every slot that no valid
    definition of the array names. *)
Theorem JSON_Iterate_untouched_slot
        (stop : bool) (nodes : list JNode) (st : ADS7830) (w : world)
        (i : Z) :
  0 <= i ->
  (forall n, In n nodes -> node_valid n = true -> node_channel n <> i) ->
  get_channel (fst (JSON_Iterate stop nodes ParseChannel st w)) i
  = get_channel st i.
Proof.
  intros Hi Hall. apply JSON_Iterate_other_slot; assumption.
Qed.

(** X17: of several definitions of one channel the last one counts: after
    the registry is populated the channel has the interval of the last
    valid definition that names it, and the name of its variable when that
    definition has one. *)
Theorem JSON_Iterate_last_definition
        (stop : bool) (pre post : list JNode) (pNode : JNode)
        (st : ADS7830) (w : world) :
  0 <= node_channel pNode <= 7 ->
  (forall n, In n post -> node_valid n = true ->
             node_channel n <> node_channel pNode) ->
  let st' := fst (JSON_Iterate stop (pre ++ pNode :: post) ParseChannel st w) in
  interval (get_channel st' (node_channel pNode)) = node_interval pNode
  /\ (forall v, JSON_GetStr pNode "var" = Some v ->
                name (get_channel st' (node_channel pNode)) = Some v)
  /\ (JSON_GetStr pNode "var" = None ->
      hVar (get_channel st' (node_channel pNode)) = VAR_INVALID).
Proof.
  intros Hch Hpost st'. subst st'.
  rewrite JSON_Iterate_ParseChannel_app, JSON_Iterate_ParseChannel_cons.
  rewrite JSON_Iterate_other_slot; [|lia|exact Hpost].
  apply in_range_spec in Hch.
  match goal with
  | |- context [ParseChannel pNode ?s ?x] =>
      destruct (ParseChannel_effects pNode s x Hch)
        as (evs & a & Hst & _ & _ & Hint & Hvar & _)
  end.
  rewrite Hst. cbn [snd]. rewrite get_set_channel.
  split; [exact Hint|].
  destruct (JSON_GetStr pNode "var") as [v0|].
  - split; [intros v Hv; injection Hv as <-; apply Hvar | discriminate].
  - split; [discriminate | intros _; apply Hvar].
Qed.
End Population.

(** ** The voltage printed *)

Lemma hundredths_table :
  forallb (fun d => match hundredths (voltage d) with
                    | Some h => h =? round_half_even (d * 330) 255
                    | None => false
                    end)
          bytes = true.
Proof. vm_compute. reflexivity. Qed.

(** X18: for every raw byte the amount that the report prints with two
    decimals is the exact value byte * 3.3 / 255 rounded to the nearest
    hundredth: the arithmetic in floating point never moves the printed
    value by a digit, and what is printed is between 0.00 and 3.30. *)
Theorem voltage_printed (d : Z) :
  0 <= d <= 255 ->
  hundredths (voltage d) = Some (round_half_even (d * 330) 255)
  /\ 0 <= round_half_even (d * 330) 255 <= 330.
Proof.
  intros Hd.
  pose proof hundredths_table as Htab.
  rewrite forallb_forall in Htab. specialize (Htab d (in_bytes d Hd)).
  destruct (hundredths (voltage d)) as [h|]; [|discriminate Htab].
  apply Z.eqb_eq in Htab. subst h. split; [reflexivity|].
  unfold round_half_even.
  pose proof (Z.div_pos (d * 330) 255 ltac:(lia) ltac:(lia)).
  pose proof (Z.mod_pos_bound (d * 330) 255 ltac:(lia)).
  pose proof (Z.div_mod (d * 330) 255 ltac:(lia)).
  assert (d * 330 / 255 <= 330) by (apply Z.div_le_upper_bound; lia).
  assert (d * 330 / 255 = 330 -> (d * 330) mod 255 = 0) by lia.
  destruct (2 * ((d * 330) mod 255) <? 255) eqn:Hlow; [lia|].
  apply Z.ltb_ge in Hlow.
  destruct (255 <? 2 * ((d * 330) mod 255)) eqn:Hhigh; [lia|].
  destruct (Z.even (d * 330 / 255)); lia.
Qed.

(** Byte 128 is shown as 1.66. *)
Lemma voltage_printed_witness :
  0 <= 128 <= 255 /\ hundredths (voltage 128) = Some 166.
Proof.
  split; [lia|].
  destruct (voltage_printed 128 ltac:(lia)) as [Hprinted _].
  exact Hprinted.
Defined.

(** Channel 0 when the sample array, which defines channel 3 only, is
    taken. *)
Lemma JSON_Iterate_untouched_slot_witness :
  0 <= 0
  /\ get_channel
       (fst (JSON_Iterate true sample_array
               (@ParseChannel sample_platform (working_env 0))
               sample_state sample_world)) 0
     = get_channel sample_state 0.
Proof.
  split; [lia|].
  apply (@JSON_Iterate_untouched_slot sample_platform (working_env 0)
           true sample_array sample_state sample_world 0); [lia|].
  intros n [<-|[<-|[<-|[]]]] _; discriminate.
Defined.

(** Channel 3 of the sample array: the second definition, without an
    interval, counts. *)
Lemma JSON_Iterate_last_definition_witness :
  0 <= node_channel [("channel", "3"); ("var", "/HW/ADS7830/B3")] <= 7
  /\ interval
       (get_channel
          (fst (JSON_Iterate true sample_array
                  (@ParseChannel sample_platform (working_env 0))
                  sample_state sample_world)) 3)
     = 0.
Proof.
  split; [cbv; split; discriminate|].
  destruct (@JSON_Iterate_last_definition sample_platform (working_env 0)
              true [node_timed; node_bad_index] []
              [("channel", "3"); ("var", "/HW/ADS7830/B3")]
              sample_state sample_world
              ltac:(cbv; split; discriminate)
              ltac:(intros n [])) as [Hint _].
  exact Hint.
Defined.

(** ** An index that is not a number *)

Lemma atoi_not_a_number (s : string) :
  match skip_spaces s with
  | String c _ => is_digit c = false /\ c <> "-"%char /\ c <> "+"%char
  | EmptyString => True
  end ->
  atoi_value s = 0.
Proof.
  unfold atoi_value, strtol10, spelled.
  destruct (skip_spaces s) as [|c rest]; [reflexivity|].
  intros (Hdigit & Hminus & Hplus).
  assert (Hdigits : digits (String c rest) 0 = 0)
    by (cbn [digits]; rewrite Hdigit; reflexivity).
  destruct c as [[] [] [] [] [] [] [] []];
    try (exfalso; apply Hminus; reflexivity);
    try (exfalso; apply Hplus; reflexivity);
    rewrite Hdigits; reflexivity.
Qed.

Section NotANumber.
Context `{Platform} `{Env}.

(** X19: the index of a definition is read with [atoi] and not checked
    further: a ["channel"] attribute that does not begin, after white
    space, with a sign or a digit counts as channel 0, and the definition
    is stored in the slot of channel 0. *)
Theorem ParseChannel_index_not_a_number
        (pNode : JNode) (st : ADS7830) (w : world) (index : string) :
  JSON_GetStr pNode "channel" = Some index ->
  match skip_spaces index with
  | String c _ => is_digit c = false /\ c <> "-"%char /\ c <> "+"%char
  | EmptyString => True
  end ->
  let st' := snd (fst (ParseChannel pNode st w)) in
  node_channel pNode = 0
  /\ interval (get_channel st' 0) = node_interval pNode
  /\ (JSON_GetStr pNode "var" = None ->
      hVar (get_channel st' 0) = VAR_INVALID).
Proof.
  intros Hindex Hnan st'.
  assert (Hch : node_channel pNode = 0).
  { unfold node_channel. rewrite Hindex. apply atoi_not_a_number, Hnan. }
  assert (Hv : node_valid pNode = true)
    by (unfold node_valid; rewrite Hch; reflexivity).
  destruct (ParseChannel_effects pNode st w Hv)
    as (evs & a & Hst & _ & _ & Hint & Hvar & _).
  subst st'. rewrite Hst, Hch. cbn [snd]. rewrite get_set_channel.
  split; [reflexivity|]. split; [exact Hint|].
  intros Hnone. rewrite Hnone in Hvar. apply Hvar.
Qed.
End NotANumber.

(** A definition with the index spelled out. *)
Lemma ParseChannel_index_not_a_number_witness :
  JSON_GetStr node_not_a_number "channel" = Some "three"
  /\ interval
       (get_channel
          (snd (fst (@ParseChannel sample_platform (working_env 0)
                                   node_not_a_number sample_state
                                   sample_world))) 0)
     = 250.
Proof.
  split; [reflexivity|].
  destruct (@ParseChannel_index_not_a_number sample_platform (working_env 0)
              node_not_a_number sample_state sample_world "three" eq_refl
              ltac:(cbn; repeat split; discriminate))
    as (_ & Hint & _).
  exact Hint.
Defined.
